(** * Azure Pricing MCP server: a shallow embedding of [src/index.ts]

    The server answers five tools over the Azure Retail Prices API.  This
    file embeds its filter builder, its paginated fetcher, its report
    formatters and its request dispatcher, and proves the properties the
    specification states about them.

    Modelling conventions.
    - A JavaScript value of the argument bag is a [JsValue]; a property that
      is absent reads as [None] (undefined).  Numbers of the argument bag are
      the integers, and [NaN] where a coercion produces it.
    - A price is a rational; how a price prints is the engine's business and
      is a field of the host.
    - An awaited promise either fulfils or rejects ([Settled]); the network
      and the engine's locale-sensitive functions make up the [Host].
    - An async function is a computation [Async A] that threads the log of
      the requests it issued and ends in an [outcome]: a returned value, a
      thrown error (its message), or divergence when the [while] loop is
      given too little fuel.
    - Outside the model: numbers of the argument bag that are not integers, a
      call without an argument bag, and a fetch that never settles. *)

From Stdlib Require Import ZArith QArith Lqa String Ascii List Lia.
From Stdlib Require Import Sorting.Sorted Sorting.Permutation Numbers.DecimalString.
From stdpp Require Import base gmap strings.
Import ListNotations.

Open Scope string_scope.

(** ** Characters the templates need *)

Definition LF : string := String "010"%char EmptyString.
Definition DQUOTE : string := String "034"%char EmptyString.

(** ** JavaScript values and coercions *)

(** The values a JSON argument bag can hold.  The fields of an object value
    are never read by the program, so [VObject] carries none. *)
#[warnings="-register-all"]
Inductive JsValue : Type :=
| VNull
| VBool (b : bool)
| VNumber (n : Z)
| VString (s : string)
| VArray (elems : list JsValue)
| VObject.

(** The number type where a coercion can fail. *)
Inductive number : Type :=
| NaN
| Int (n : Z).

(** [Number::toString] on an integer: its decimal numeral. *)
Definition Number_toString (n : Z) : string :=
  NilZero.string_of_int (Z.to_int n).

(** [ToBoolean] of a property read ([None] is undefined). *)
Definition truthy (v : option JsValue) : bool :=
  match v with
  | None => false
  | Some VNull => false
  | Some (VBool b) => b
  | Some (VNumber n) => negb (n =? 0)%Z
  | Some (VString s) => negb (s =? "")%string
  | Some (VArray _) => true
  | Some VObject => true
  end.

(** [Array.prototype.join] on strings. *)
Fixpoint join (sep : string) (parts : list string) : string :=
  match parts with
  | [] => ""
  | [p] => p
  | p :: rest => p ++ sep ++ join sep rest
  end.

(** [ToString] of a value; an array prints its elements separated by commas,
    a null element as the empty string. *)
Fixpoint ToString_value (v : JsValue) : string :=
  match v with
  | VNull => "null"
  | VBool true => "true"
  | VBool false => "false"
  | VNumber n => Number_toString n
  | VString s => s
  | VArray elems =>
      join "," (map (fun e => match e with
                              | VNull => ""
                              | _ => ToString_value e
                              end) elems)
  | VObject => "[object Object]"
  end.

(** [ToString] of a property read, as a template literal applies it. *)
Definition ToString (v : option JsValue) : string :=
  match v with
  | None => "undefined"
  | Some x => ToString_value x
  end.

(** [a || b] on property reads. *)
Definition or_else (a : option JsValue) (b : JsValue) : option JsValue :=
  if truthy a then a else Some b.

(** ** The data model of the source *)

Module SavingsPlan.
Record t : Type := mk {
  unitPrice : Q;
  retailPrice : Q;
  term : string
}.
End SavingsPlan.

Record PriceItem : Type := mkPriceItem {
  currencyCode : string;
  tierMinimumUnits : Q;
  retailPrice : Q;
  unitPrice : Q;
  armRegionName : string;
  location : string;
  effectiveStartDate : string;
  meterId : string;
  meterName : string;
  productId : string;
  skuId : string;
  productName : string;
  skuName : string;
  serviceName : string;
  serviceId : string;
  serviceFamily : string;
  unitOfMeasure : string;
  type : string;
  isPrimaryMeterRegion : bool;
  armSkuName : string;
  reservationTerm : option string;
  savingsPlan : option (list SavingsPlan.t)
}.

Record ApiResponse : Type := mkApiResponse {
  BillingCurrency : string;
  CustomerEntityId : string;
  CustomerEntityType : string;
  Items : list PriceItem;
  NextPageLink : option string;
  Count : Z
}.

(** ** Promises, the network and the host *)

(** How an awaited promise settles; a rejection carries the message of its
    error. *)
Inductive Settled (A : Type) : Type :=
| Fulfilled (a : A)
| Rejected (reason : string).
Arguments Fulfilled {A} a.
Arguments Rejected {A} reason.

(** The [Response] of [fetch]: [json] is how [response.json()] settles. *)
Record Response : Type := mkResponse {
  ok : bool;
  status : Z;
  statusText : string;
  json : Settled ApiResponse
}.

(** A [URL] object: its base and its search parameters, in order. *)
Record URL : Type := mkURL {
  href : string;
  searchParams : list (string * string)
}.

(** [url.searchParams.set(name, value)]: the first pair of that name takes the
    value and later ones go; a new name is appended. *)
Fixpoint searchParams_set (name value : string) (ps : list (string * string))
  : list (string * string) :=
  match ps with
  | [] => [(name, value)]
  | (k, v) :: rest =>
      if (k =? name)%string
      then (k, value) :: List.filter (fun kv => negb (fst kv =? name)%string) rest
      else (k, v) :: searchParams_set name value rest
  end.

Definition URL_set (name value : string) (url : URL) : URL :=
  {| href := href url; searchParams := searchParams_set name value (searchParams url) |}.

(** What [fetch] is called with: the serialised [URL] of the first request,
    or a next-page link taken verbatim. *)
Inductive Request : Type :=
| GET_url (url : URL)
| GET_link (link : string).

(** The environment of a call: the upstream behind [fetch] and the engine's
    functions that the source calls and does not define. *)
Class Host : Type := {
  fetch : Request -> Settled Response;
  localeCompare : string -> string -> Z;
  StringToNumber : string -> number;
  price_toString : Q -> string
}.

(** [ToNumber] of a value, as [Math.min] applies it to its arguments. *)
Definition ToNumber `{Host} (v : option JsValue) : number :=
  match v with
  | None => NaN
  | Some VNull => Int 0
  | Some (VBool b) => Int (if b then 1 else 0)
  | Some (VNumber n) => Int n
  | Some (VString s) => StringToNumber s
  | Some (VArray elems) => StringToNumber (ToString_value (VArray elems))
  | Some VObject => NaN
  end.

(** [Math.min(a, b)] with a finite second argument. *)
Definition Math_min (a : number) (b : Z) : number :=
  match a with
  | NaN => NaN
  | Int n => Int (Z.min n b)
  end.

(** ** Async computations *)

Inductive outcome (A : Type) : Type :=
| Returned (a : A)
| Thrown (message : string)
| Diverged.
Arguments Returned {A} a.
Arguments Thrown {A} message.
Arguments Diverged {A}.

Definition Async (A : Type) : Type := list Request -> outcome A * list Request.

Definition ret {A} (a : A) : Async A := fun log => (Returned a, log).

Definition throw {A} (message : string) : Async A := fun log => (Thrown message, log).

Definition diverge {A} : Async A := fun log => (Diverged, log).

Definition bind {A B} (m : Async A) (k : A -> Async B) : Async B :=
  fun log =>
    match m log with
    | (Returned a, log') => k a log'
    | (Thrown e, log') => (Thrown e, log')
    | (Diverged, log') => (Diverged, log')
    end.

Notation "x <- m ;; k" := (bind m (fun x => k))
  (at level 100, m at next level, right associativity).

(** [await p] for a promise that has settled. *)
Definition await {A} (p : Settled A) : Async A :=
  match p with
  | Fulfilled a => ret a
  | Rejected reason => throw reason
  end.

(** [await fetch(request)]: the request goes on the log. *)
Definition await_fetch `{Host} (request : Request) : Async Response :=
  fun log => await (fetch request) (log ++ [request])%list.

(** [try { body } catch (error) { handler(message) }]. *)
Definition try_catch {A} (body : Async A) (handler : string -> Async A) : Async A :=
  fun log =>
    match body log with
    | (Thrown e, log') => handler e log'
    | r => r
    end.

(** ** Arrays *)

(** [array.push(x)] and [array.push(...xs)]. *)
Definition Array_push {A} (array : list A) (x : A) : list A := (array ++ [x])%list.

Definition Array_push_all {A} (array xs : list A) : list A := (array ++ xs)%list.

(** [ToIntegerOrInfinity], as [slice] applies it to its bounds. *)
Definition ToIntegerOrInfinity (n : number) : Z :=
  match n with
  | NaN => 0
  | Int z => z
  end.

(** [array.slice(0, end)]: a negative [end] counts from the end of the
    array. *)
Definition Array_slice0 {A} (end_ : number) (array : list A) : list A :=
  let len := Z.of_nat (length array) in
  let relativeEnd := ToIntegerOrInfinity end_ in
  let final :=
    if (relativeEnd <? 0)%Z then Z.max (len + relativeEnd) 0 else Z.min relativeEnd len in
  firstn (Z.to_nat final) array.

(** [length < n] between an array length and a number; a comparison with
    [NaN] is false. *)
Definition length_lt (len : nat) (n : number) : bool :=
  match n with
  | NaN => false
  | Int z => (Z.of_nat len <? z)%Z
  end.

(** [Array.prototype.sort(compare)].  The sort is stable; it is embedded as
    the insertion sort that puts an element before the first later element
    it does not exceed. *)
Fixpoint sort_insert {A} (compare : A -> A -> Q) (x : A) (sorted : list A) : list A :=
  match sorted with
  | [] => [x]
  | y :: rest =>
      if Qle_bool (compare x y) 0 then x :: y :: rest
      else y :: sort_insert compare x rest
  end.

Fixpoint Array_sort {A} (compare : A -> A -> Q) (array : list A) : list A :=
  match array with
  | [] => []
  | x :: rest => sort_insert compare x (Array_sort compare rest)
  end.

(** The comparison [sort()] uses when it is given none: strings by their
    code units. *)
Definition default_compare (a b : string) : Q :=
  match String.compare a b with
  | Lt => -1
  | Eq => 0
  | Gt => 1
  end.

(** ** The filter builder *)

Definition simpleFilters : list (string * string) :=
  [ ("serviceName", "serviceName");
    ("serviceFamily", "serviceFamily");
    ("armRegionName", "armRegionName");
    ("armSkuName", "armSkuName");
    ("priceType", "priceType");
    ("productName", "productName");
    ("skuName", "skuName");
    ("meterName", "meterName") ].

Definition buildFilter (params : gmap string JsValue) : string :=
  let filters : list string := [] in
  let filters :=
    fold_left
      (fun (filters : list string) (entry : string * string) =>
         let (param, field) := entry in
         if truthy (params !! param)
         then Array_push filters (field ++ " eq '" ++ ToString (params !! param) ++ "'")
         else filters)
      simpleFilters filters in
  let filters :=
    if truthy (params !! "customFilter")
    then Array_push filters (ToString (params !! "customFilter"))
    else filters in
  join " and " filters.

(** ** The paginated fetcher *)

Definition API_BASE_URL : string := "https://prices.azure.com/api/retail/prices".
Definition API_VERSION : string := "2023-01-01-preview".

Definition queryAzurePrices `{Host} (params : gmap string JsValue) : Async ApiResponse :=
  let url := {| href := API_BASE_URL; searchParams := [] |} in
  let url := URL_set "api-version" API_VERSION url in
  let url :=
    if truthy (params !! "currencyCode")
    then URL_set "currencyCode" ("'" ++ ToString (params !! "currencyCode") ++ "'") url
    else url in
  let url :=
    if truthy (params !! "primaryOnly")
    then URL_set "meterRegion" "'primary'" url
    else url in
  let filter := buildFilter params in
  let url := if negb (filter =? "") then URL_set "$filter" filter url else url in
  response <- await_fetch (GET_url url) ;;
  if negb (ok response)
  then throw ("API request failed: " ++ Number_toString (status response)
              ++ " " ++ statusText response)
  else await (json response).

(** The [while] loop of [fetchWithPagination]; one unit of fuel per
    iteration. *)
Fixpoint pagination_loop `{Host} (fuel : nat) (maxResults : number)
    (response : ApiResponse) (items : list PriceItem) : Async (list PriceItem) :=
  match NextPageLink response with
  | Some link =>
      if negb (link =? "") && length_lt (length items) maxResults
      then
        match fuel with
        | O => diverge
        | S fuel' =>
            nextResponse <- await_fetch (GET_link link) ;;
            if negb (ok nextResponse) then ret items
            else
              response' <- await (json nextResponse) ;;
              pagination_loop fuel' maxResults response' (Array_push_all items (Items response'))
        end
      else ret items
  | None => ret items
  end.

(** [maxResults] is [None] when the argument is left out. *)
Definition fetchWithPagination `{Host} (fuel : nat) (params : gmap string JsValue)
    (maxResults : option number) : Async (list PriceItem) :=
  let maxResults := default (Int 100) maxResults in
  response <- queryAzurePrices params ;;
  items <- pagination_loop fuel maxResults response (Array_push_all [] (Items response)) ;;
  ret (Array_slice0 maxResults items).

(** ** Insertion-ordered maps and sets *)

(** A JavaScript [Map] with string keys: its entries in insertion order. *)
Module JsMap.

Definition has {V} (key : string) (m : list (string * V)) : bool :=
  existsb (fun entry => (fst entry =? key)%string) m.

Fixpoint get {V} (key : string) (m : list (string * V)) : option V :=
  match m with
  | [] => None
  | (k, v) :: rest => if (k =? key)%string then Some v else get key rest
  end.

(** [m.set(key, value)]: an existing key keeps its place. *)
Fixpoint set {V} (key : string) (value : V) (m : list (string * V)) : list (string * V) :=
  match m with
  | [] => [(key, value)]
  | (k, v) :: rest =>
      if (k =? key)%string then (k, value) :: rest else (k, v) :: set key value rest
  end.

(** [m.get(key)!.mutate()]: the object held under [key] is changed in place,
    so every later read of the map sees the change. *)
Fixpoint update {V} (key : string) (mutate : V -> V) (m : list (string * V))
  : list (string * V) :=
  match m with
  | [] => []
  | (k, v) :: rest =>
      if (k =? key)%string then (k, mutate v) :: rest else (k, v) :: update key mutate rest
  end.

End JsMap.

(** A JavaScript [Set] of strings: its members in insertion order. *)
Module JsSet.

Definition has (x : string) (s : list string) : bool :=
  existsb (fun y => (y =? x)%string) s.

Definition add (x : string) (s : list string) : list string :=
  if has x s then s else Array_push s x.

End JsSet.

(** ** The report formatters *)

Definition formatPriceItem `{Host} (item : PriceItem) : string :=
  let result :=
    "**" ++ productName item ++ "** - " ++ skuName item ++ LF
    ++ "  - Retail Price: " ++ price_toString (retailPrice item) ++ " "
    ++ currencyCode item ++ "/" ++ unitOfMeasure item ++ LF
    ++ "  - Region: " ++ location item ++ " (" ++ armRegionName item ++ ")" ++ LF
    ++ "  - Service: " ++ serviceName item ++ " (" ++ serviceFamily item ++ ")" ++ LF
    ++ "  - Type: " ++ type item ++ LF
    ++ "  - Meter: " ++ meterName item ++ LF
    ++ "  - ARM SKU: " ++ (if armSkuName item =? "" then "N/A" else armSkuName item) in
  let result :=
    match reservationTerm item with
    | Some reservationTerm =>
        if negb (reservationTerm =? "")
        then result ++ LF ++ "  - Reservation Term: " ++ reservationTerm
        else result
    | None => result
    end in
  let result :=
    match savingsPlan item with
    | Some plans =>
        if (0 <? length plans)%nat
        then
          fold_left
            (fun result plan =>
               result ++ LF ++ "    - " ++ SavingsPlan.term plan ++ ": "
               ++ price_toString (SavingsPlan.retailPrice plan) ++ " " ++ currencyCode item)
            plans (result ++ LF ++ "  - Savings Plans:")
        else result
    | None => result
    end in
  result.

Definition formatPriceItems `{Host} (items : list PriceItem) : string :=
  if (length items =? 0)%nat then "No prices found matching the criteria."
  else
    let formatted := map formatPriceItem items in
    "Found " ++ Number_toString (Z.of_nat (length items)) ++ " price(s):" ++ LF ++ LF
    ++ join (LF ++ LF) formatted.

Definition SERVICE_FAMILIES : list string :=
  [ "Analytics";
    "Azure Arc";
    "Azure Communication Services";
    "Azure Security";
    "Azure Stack";
    "Compute";
    "Containers";
    "Data";
    "Databases";
    "Developer Tools";
    "Dynamics";
    "Gaming";
    "Integration";
    "Internet of Things";
    "Management and Governance";
    "Microsoft Syntex";
    "Mixed Reality";
    "Networking";
    "Other";
    "Power Platform";
    "Quantum Computing";
    "Security";
    "Storage";
    "Telecommunications";
    "Web";
    "Windows Virtual Desktop" ].

(** [list.includes(v)] on an array of strings: only a string value can be
    the same as a member. *)
Definition includes_string (list : list string) (v : option JsValue) : bool :=
  match v with
  | Some (VString s) => existsb (fun member => (member =? s)%string) list
  | _ => false
  end.

(** [values.includes(s)] for a string [s] on an array of values. *)
Definition includes_value (values : list JsValue) (s : string) : bool :=
  existsb (fun v => match v with
                    | VString member => (member =? s)%string
                    | _ => false
                    end) values.

(** A property of an object literal: writing undefined leaves it reading as
    undefined. *)
Definition set_prop (key : string) (v : option JsValue) (o : gmap string JsValue)
  : gmap string JsValue :=
  match v with
  | Some x => <[key := x]> o
  | None => delete key o
  end.

(** The grouping loop shared by the comparison and reservation reports:
    [if (!grouped.has(key)) grouped.set(key, []); grouped.get(key)!.push(item)]. *)
Definition group_by (key_of : PriceItem -> string) (items : list PriceItem)
  : list (string * list PriceItem) :=
  fold_left
    (fun grouped item =>
       let key := key_of item in
       let grouped := if negb (JsMap.has key grouped) then JsMap.set key [] grouped
                      else grouped in
       JsMap.update key (fun prices => Array_push prices item) grouped)
    items [].

(** The report of [compare_vm_prices] over the filtered items. *)
Definition compare_report `{Host} (filtered : list PriceItem) : string :=
  let grouped := group_by armSkuName filtered in
  let result := "## VM Price Comparison" ++ LF ++ LF in
  let result :=
    fold_left
      (fun result (entry : string * list PriceItem) =>
         let (sku, prices) := entry in
         let result := result ++ "### " ++ sku ++ LF in
         let sorted := Array_sort (fun a b => (retailPrice a - retailPrice b)%Q) prices in
         let result :=
           fold_left
             (fun result p =>
                result ++ "- " ++ armRegionName p ++ ": " ++ price_toString (retailPrice p)
                ++ " " ++ currencyCode p ++ "/" ++ unitOfMeasure p
                ++ " (" ++ productName p ++ ")" ++ LF)
             (Array_slice0 (Int 10) sorted) result in
         result ++ LF)
      grouped result in
  if result =? "" then "No VM prices found for the specified criteria." else result.

(** The region filter of [compare_vm_prices]. *)
Definition filter_regions (regions : option JsValue) (items : list PriceItem)
  : list PriceItem :=
  match regions with
  | Some (VArray regions) =>
      if (0 <? length regions)%nat
      then List.filter (fun item => includes_value regions (armRegionName item)) items
      else items
  | _ => items
  end.

Definition compare_vm_prices `{Host} (fuel : nat) (args : gmap string JsValue)
  : Async string :=
  let params : gmap string JsValue :=
    set_prop "currencyCode" (args !! "currencyCode")
      (set_prop "priceType" (or_else (args !! "priceType") (VString "Consumption"))
         (set_prop "serviceName" (Some (VString "Virtual Machines")) ∅)) in
  let params :=
    if truthy (args !! "skuName") then set_prop "armSkuName" (args !! "skuName") params
    else params in
  items <- fetchWithPagination fuel params (Some (Int 500)) ;;
  let filtered := filter_regions (args !! "regions") items in
  ret (compare_report filtered).

Definition query_azure_prices `{Host} (fuel : nat) (args : gmap string JsValue)
  : Async string :=
  let maxResults :=
    Math_min (ToNumber (or_else (args !! "maxResults") (VNumber 100))) 1000 in
  items <- fetchWithPagination fuel args (Some maxResults) ;;
  ret (formatPriceItems items).

Definition get_service_families : string :=
  "## Azure Service Families" ++ LF ++ LF
  ++ "The following service families can be used to filter Azure prices:" ++ LF ++ LF
  ++ join LF (map (fun f => "- " ++ f) SERVICE_FAMILIES).

(** The report of [get_reservation_prices] over a non-empty item list. *)
Definition reservation_report `{Host} (items : list PriceItem) : string :=
  let grouped :=
    group_by (fun item => if armSkuName item =? "" then skuName item else armSkuName item)
      items in
  let result := "## Reservation Prices" ++ LF ++ LF in
  fold_left
    (fun result (entry : string * list PriceItem) =>
       let (sku, prices) := entry in
       let result := result ++ "### " ++ sku ++ LF in
       let result :=
         fold_left
           (fun result p =>
              result ++ "- "
              ++ match reservationTerm p with
                 | Some t => if t =? "" then "N/A" else t
                 | None => "N/A"
                 end
              ++ ": " ++ price_toString (retailPrice p) ++ " " ++ currencyCode p
              ++ " - " ++ location p ++ " (" ++ productName p ++ ")" ++ LF)
           prices result in
       result ++ LF)
    grouped result.

Definition get_reservation_prices `{Host} (fuel : nat) (args : gmap string JsValue)
  : Async string :=
  let params : gmap string JsValue :=
    set_prop "currencyCode" (args !! "currencyCode")
      (set_prop "armRegionName" (args !! "armRegionName")
         (set_prop "armSkuName" (args !! "armSkuName")
            (set_prop "serviceName" (args !! "serviceName")
               (set_prop "priceType" (Some (VString "Reservation")) ∅)))) in
  items <- fetchWithPagination fuel params (Some (Int 200)) ;;
  if (length items =? 0)%nat
  then ret "No reservation prices found for the specified criteria."
  else ret (reservation_report items).

(** The loop that collects, per service name, the set of its product names. *)
Definition collect_services (items : list PriceItem) : list (string * list string) :=
  fold_left
    (fun services item =>
       let services :=
         if negb (JsMap.has (serviceName item) services)
         then JsMap.set (serviceName item) [] services
         else services in
       JsMap.update (serviceName item) (JsSet.add (productName item)) services)
    items [].

(** The report of [get_services_by_family] over a non-empty item list. *)
Definition services_report `{Host} (serviceFamily : string) (items : list PriceItem)
  : string :=
  let services := collect_services items in
  let result := "## Services in " ++ DQUOTE ++ serviceFamily ++ DQUOTE ++ " Family" ++ LF ++ LF in
  let result :=
    result ++ "Found " ++ Number_toString (Z.of_nat (length services))
    ++ " service(s) from " ++ Number_toString (Z.of_nat (length items))
    ++ " price records:" ++ LF ++ LF in
  let sortedServices :=
    Array_sort (fun a b => inject_Z (localeCompare (fst a) (fst b))) services in
  fold_left
    (fun result (entry : string * list string) =>
       let (serviceName, products) := entry in
       let result := result ++ "### " ++ serviceName ++ LF in
       let result :=
         result ++ "Products (" ++ Number_toString (Z.of_nat (length products)) ++ "):" ++ LF in
       let sortedProducts := Array_slice0 (Int 20) (Array_sort default_compare products) in
       let result :=
         fold_left (fun result product => result ++ "- " ++ product ++ LF)
           sortedProducts result in
       let result :=
         if (20 <? length products)%nat
         then result ++ "- ... and "
              ++ Number_toString (Z.of_nat (length products) - 20) ++ " more" ++ LF
         else result in
       result ++ LF)
    sortedServices result.

Definition get_services_by_family `{Host} (fuel : nat) (args : gmap string JsValue)
  : Async string :=
  let serviceFamily := args !! "serviceFamily" in
  if negb (includes_string SERVICE_FAMILIES serviceFamily)
  then ret ("Unknown service family: " ++ DQUOTE ++ ToString serviceFamily ++ DQUOTE
            ++ ". Use get_service_families to see valid options.")
  else
    let maxResults :=
      Math_min (ToNumber (or_else (args !! "maxResults") (VNumber 500))) 2000 in
    items <- fetchWithPagination fuel (set_prop "serviceFamily" serviceFamily ∅)
               (Some maxResults) ;;
    if (length items =? 0)%nat
    then ret ("No services found for service family: " ++ ToString serviceFamily)
    else ret (services_report (ToString serviceFamily) items).

(** ** The request dispatcher *)

(** The names of the registered tools, in the order of the [tools] array. *)
Definition tools : list string :=
  [ "query_azure_prices";
    "compare_vm_prices";
    "get_service_families";
    "get_reservation_prices";
    "get_services_by_family" ].

Definition handleToolCall `{Host} (fuel : nat) (name : string)
    (args : gmap string JsValue) : Async string :=
  if name =? "query_azure_prices" then query_azure_prices fuel args
  else if name =? "compare_vm_prices" then compare_vm_prices fuel args
  else if name =? "get_service_families" then ret get_service_families
  else if name =? "get_reservation_prices" then get_reservation_prices fuel args
  else if name =? "get_services_by_family" then get_services_by_family fuel args
  else throw ("Unknown tool: " ++ name).

Module Content.
Record t : Type := mk {
  type : string;
  text : string
}.
End Content.

Record CallToolResult : Type := mkCallToolResult {
  content : list Content.t;
  isError : option bool
}.

(** The handler registered for tool calls: the single [try]/[catch] of the
    server. *)
Definition CallToolRequest_handler `{Host} (fuel : nat) (name : string)
    (args : gmap string JsValue) : Async CallToolResult :=
  try_catch
    (result <- handleToolCall fuel name args ;;
     ret {| content := [Content.mk "text" result]; isError := None |})
    (fun errorMessage =>
       ret {| content := [Content.mk "text" ("Error: " ++ errorMessage)];
              isError := Some true |}).

(** * The vocabulary of the specification

    The notions the specification speaks in: clauses, page sequences, first-seen
    order, the sections of a report.  The properties below relate the loops of
    the source to them. *)

(** The lines of a report: one rendered string per element, in order. *)
Fixpoint concat_map {A} (f : A -> string) (l : list A) : string :=
  match l with
  | [] => ""
  | x :: rest => f x ++ concat_map f rest
  end.

(** The recognized fields that [params] supplies, in declaration order. *)
Definition supplied_fields (params : gmap string JsValue) : list (string * string) :=
  List.filter (fun entry => truthy (params !! fst entry)) simpleFilters.

(** The clause of a recognized field. *)
Definition eq_clause (params : gmap string JsValue) (entry : string * string) : string :=
  snd entry ++ " eq '" ++ ToString (params !! fst entry) ++ "'".

(** The custom filter, when one is supplied. *)
Definition custom_clause (params : gmap string JsValue) : list string :=
  if truthy (params !! "customFilter") then [ToString (params !! "customFilter")] else [].

(** The request [queryAzurePrices] issues for [params]. *)
Definition initial_request (params : gmap string JsValue) : Request :=
  let url := {| href := API_BASE_URL; searchParams := [] |} in
  let url := URL_set "api-version" API_VERSION url in
  let url :=
    if truthy (params !! "currencyCode")
    then URL_set "currencyCode" ("'" ++ ToString (params !! "currencyCode") ++ "'") url
    else url in
  let url :=
    if truthy (params !! "primaryOnly")
    then URL_set "meterRegion" "'primary'" url
    else url in
  let filter := buildFilter params in
  let url := if negb (filter =? "") then URL_set "$filter" filter url else url in
  GET_url url.

(** The error of a first request answered with a non-success status. *)
Definition api_error (response : Response) : string :=
  "API request failed: " ++ Number_toString (status response) ++ " " ++ statusText response.

(** The link chain that starts at [response] stops there: the page has no
    link, or an empty one, or the fetch of its link is answered with a
    non-success status. *)
Definition chain_ends `{Host} (response : ApiResponse) : Prop :=
  NextPageLink response = None
  \/ NextPageLink response = Some ""
  \/ exists link r,
       NextPageLink response = Some link /\ fetch (GET_link link) = Fulfilled r
       /\ ok r = false.

(** The upstream serves the pages [rest], in this order, along the link chain
    that starts at [response], and the chain stops after the last of them. *)
Fixpoint serves `{Host} (response : ApiResponse) (rest : list ApiResponse) : Prop :=
  match rest with
  | [] => chain_ends response
  | next :: rest' =>
      (exists link r,
         NextPageLink response = Some link /\ link <> ""
         /\ fetch (GET_link link) = Fulfilled r /\ ok r = true /\ json r = Fulfilled next)
      /\ serves next rest'
  end.

(** The items of a page sequence, concatenated in page-arrival order. *)
Definition arrival_order (pages : list ApiResponse) : list PriceItem :=
  concat (map Items pages).

(** Every request is answered with an HTTP response, and the body of a
    success response can be read. *)
Definition answers_http (H : Host) : Prop :=
  forall request, exists r,
    fetch request = Fulfilled r /\ (ok r = true -> exists body, json r = Fulfilled body).

(** The last page of a sequence links to a fetch that is answered with a
    non-success status. *)
Definition next_fetch_fails `{Host} (last_page : ApiResponse) : Prop :=
  exists link r,
    NextPageLink last_page = Some link /\ link <> ""
    /\ fetch (GET_link link) = Fulfilled r /\ ok r = false.

(** The upstream serves the pages [rest], in this order and each with a
    success status, along the link chain that starts at [response]; nothing is
    said of what follows the last of them. *)
Fixpoint linked `{Host} (response : ApiResponse) (rest : list ApiResponse) : Prop :=
  match rest with
  | [] => True
  | next :: rest' =>
      (exists link r,
         NextPageLink response = Some link /\ link <> ""
         /\ fetch (GET_link link) = Fulfilled r /\ ok r = true /\ json r = Fulfilled next)
      /\ linked next rest'
  end.

(** The fetch of the page after [last_page] fails with [reason]: the fetch is
    rejected, or it is answered with a success status and a body that cannot
    be read. *)
Definition next_fetch_raises `{Host} (last_page : ApiResponse) (reason : string) : Prop :=
  exists link,
    NextPageLink last_page = Some link /\ link <> ""
    /\ (fetch (GET_link link) = Rejected reason
        \/ exists r, fetch (GET_link link) = Fulfilled r /\ ok r = true
                     /\ json r = Rejected reason).

(** The value is not the name of a known service family. *)
Definition not_a_family (v : option JsValue) : Prop :=
  forall s, v = Some (VString s) -> ~ In s SERVICE_FAMILIES.

Definition unknown_family_message (v : option JsValue) : string :=
  "Unknown service family: " ++ DQUOTE ++ ToString v ++ DQUOTE
  ++ ". Use get_service_families to see valid options.".

(** Following the links from [response], the chain stops within [n] fetches,
    whatever the outcome of each. *)
Fixpoint chain_within `{Host} (n : nat) (response : ApiResponse) : Prop :=
  match NextPageLink response with
  | None => True
  | Some link =>
      link = ""
      \/ match n with
         | O => False
         | S n' =>
             match fetch (GET_link link) with
             | Fulfilled r =>
                 ok r = false
                 \/ match json r with
                    | Fulfilled next => chain_within n' next
                    | Rejected _ => True
                    end
             | Rejected _ => True
             end
         end
  end.

(** Every page the upstream serves starts a chain of at most [n] links. *)
Definition finite_upstream (n : nat) (H : Host) : Prop :=
  forall request r body,
    fetch request = Fulfilled r -> json r = Fulfilled body -> chain_within n body.

Definition text_result (text : string) : CallToolResult :=
  {| content := [Content.mk "text" text]; isError := None |}.

Definition error_result (message : string) : CallToolResult :=
  {| content := [Content.mk "text" ("Error: " ++ message)]; isError := Some true |}.

(** [a] does not come after [b] in the order of the comparison. *)
Definition compare_le {A} (compare : A -> A -> Q) (a b : A) : Prop :=
  (compare a b <= 0)%Q.

(** Prices: the comparison of the source orders by retail price. *)
Definition price_le (a b : PriceItem) : Prop := (retailPrice a <= retailPrice b)%Q.

(** The distinct strings of a list, in the order in which each is first
    seen. *)
Fixpoint first_seen (keys : list string) : list string :=
  match keys with
  | [] => []
  | k :: rest => k :: List.filter (fun k' => negb (k' =? k)) (first_seen rest)
  end.

Definition mem (k : string) (keys : list string) : bool :=
  existsb (fun k' => (k' =? k)%string) keys.

(** The loop [if (!m.has(key)) m.set(key, init); m.get(key)!.add(item)]. *)
Definition grouping_step {I V} (key_of : I -> string) (init : V) (add : I -> V -> V)
    (m : list (string * V)) (item : I) : list (string * V) :=
  let key := key_of item in
  let m := if negb (JsMap.has key m) then JsMap.set key init m else m in
  JsMap.update key (add item) m.

(** What the loop has built: per key first seen, the items of that key folded
    in order. *)
Definition grouped {I V} (key_of : I -> string) (init : V) (add : I -> V -> V)
    (items : list I) : list (string * V) :=
  map (fun k =>
         (k, fold_left (fun v item => add item v)
               (List.filter (fun item => (key_of item =? k)%string) items) init))
      (first_seen (map key_of items)).

(** One line of the comparison report. *)
Definition price_line `{Host} (p : PriceItem) : string :=
  "- " ++ armRegionName p ++ ": " ++ price_toString (retailPrice p) ++ " "
  ++ currencyCode p ++ "/" ++ unitOfMeasure p ++ " (" ++ productName p ++ ")" ++ LF.

(** A heading and the lines listed under it. *)
Definition sku_section `{Host} (group : string * list PriceItem) : string :=
  "### " ++ fst group ++ LF ++ concat_map price_line (snd group) ++ LF.

(** The items listed under a SKU: the ten cheapest of the group, by price. *)
Definition listed_under (sku : string) (filtered : list PriceItem) : list PriceItem :=
  firstn 10
    (Array_sort (fun a b => (retailPrice a - retailPrice b)%Q)
       (List.filter (fun item => armSkuName item =? sku) filtered)).

(** The distinct product names seen for a service, in first-seen order. *)
Definition distinct_products (service : string) (items : list PriceItem) : list string :=
  first_seen
    (map productName (List.filter (fun item => serviceName item =? service) items)).

Definition product_line (product : string) : string := "- " ++ product ++ LF.

(** The line that follows the listed products when there are more than 20. *)
Definition more_line (count : nat) : string :=
  if (20 <? count)%nat
  then "- ... and " ++ Number_toString (Z.of_nat count - 20) ++ " more" ++ LF
  else "".

(** The section of a service, given all of its product names in listing
    order: the first 20 are listed. *)
Definition service_section (entry : string * list string) : string :=
  "### " ++ fst entry ++ LF
  ++ "Products (" ++ Number_toString (Z.of_nat (length (snd entry))) ++ "):" ++ LF
  ++ concat_map product_line (firstn 20 (snd entry))
  ++ more_line (length (snd entry))
  ++ LF.

(** The services of the report: sorted by the locale comparison of their
    names, each with its distinct product names sorted by code units. *)
Definition listed_services `{Host} (items : list PriceItem) : list (string * list string) :=
  map (fun entry : string * list string =>
         (fst entry, Array_sort default_compare (snd entry)))
    (Array_sort (fun a b => inject_Z (localeCompare (fst a) (fst b)))
       (collect_services items)).

(** The search parameters [queryAzurePrices] sets when their condition
    holds. *)
Definition currency_param (params : gmap string JsValue) : list (string * string) :=
  if truthy (params !! "currencyCode")
  then [("currencyCode", "'" ++ ToString (params !! "currencyCode") ++ "'")]
  else [].

Definition primary_param (params : gmap string JsValue) : list (string * string) :=
  if truthy (params !! "primaryOnly") then [("meterRegion", "'primary'")] else [].

Definition filter_param (params : gmap string JsValue) : list (string * string) :=
  if buildFilter params =? "" then [] else [("$filter", buildFilter params)].

(** The search parameters of the first request, in order. *)
Definition request_params (params : gmap string JsValue) : list (string * string) :=
  ("api-version", API_VERSION)
  :: List.app (currency_param params) (List.app (primary_param params) (filter_param params)).

(** The properties [queryAzurePrices] and [buildFilter] read. *)
Definition request_keys : list string :=
  [ "serviceName"; "serviceFamily"; "armRegionName"; "armSkuName"; "priceType";
    "productName"; "skuName"; "meterName"; "customFilter"; "currencyCode"; "primaryOnly" ].

(** The object literal [compare_vm_prices] builds for its fetch. *)
Definition compare_params (args : gmap string JsValue) : gmap string JsValue :=
  let params : gmap string JsValue :=
    set_prop "currencyCode" (args !! "currencyCode")
      (set_prop "priceType" (or_else (args !! "priceType") (VString "Consumption"))
         (set_prop "serviceName" (Some (VString "Virtual Machines")) ∅)) in
  if truthy (args !! "skuName") then set_prop "armSkuName" (args !! "skuName") params
  else params.

(** The object literal [get_reservation_prices] builds for its fetch. *)
Definition reservation_params (args : gmap string JsValue) : gmap string JsValue :=
  set_prop "currencyCode" (args !! "currencyCode")
    (set_prop "armRegionName" (args !! "armRegionName")
       (set_prop "armSkuName" (args !! "armSkuName")
          (set_prop "serviceName" (args !! "serviceName")
             (set_prop "priceType" (Some (VString "Reservation")) ∅)))).





(** [maxResults] is left out, or is a number that is not negative. *)
Definition maxResults_not_negative (args : gmap string JsValue) : Prop :=
  args !! "maxResults" = None
  \/ exists n, args !! "maxResults" = Some (VNumber n) /\ (0 <= n)%Z.

(** The key a reservation price is grouped under: its ARM SKU name, or its
    SKU name when that is empty. *)
Definition reservation_key (item : PriceItem) : string :=
  if armSkuName item =? "" then skuName item else armSkuName item.

(** One line of the reservation report. *)
Definition reservation_line `{Host} (p : PriceItem) : string :=
  "- "
  ++ match reservationTerm p with
     | Some t => if t =? "" then "N/A" else t
     | None => "N/A"
     end
  ++ ": " ++ price_toString (retailPrice p) ++ " " ++ currencyCode p
  ++ " - " ++ location p ++ " (" ++ productName p ++ ")" ++ LF.

(** A heading of the reservation report and the lines under it. *)
Definition reservation_section `{Host} (group : string * list PriceItem) : string :=
  "### " ++ fst group ++ LF ++ concat_map reservation_line (snd group) ++ LF.

(** Every link the upstream serves leads to a page that holds an item. *)
Definition nonempty_pages (H : Host) : Prop :=
  forall link r body,
    fetch (GET_link link) = Fulfilled r -> ok r = true -> json r = Fulfilled body ->
    Items body <> [].

(** The upstream serves, from [response] on, the pages of [steps], each under
    the link of the page before it, and the last page links no further. *)
Fixpoint follows `{Host} (response : ApiResponse) (steps : list (string * ApiResponse))
  : Prop :=
  match steps with
  | [] => NextPageLink response = None \/ NextPageLink response = Some ""
  | (link, next) :: steps' =>
      NextPageLink response = Some link /\ link <> ""
      /\ (exists r, fetch (GET_link link) = Fulfilled r /\ ok r = true
                    /\ json r = Fulfilled next)
      /\ follows next steps'
  end.

(** The seven lines every block of the raw list has. *)
Definition block_base `{Host} (item : PriceItem) : string :=
  "**" ++ productName item ++ "** - " ++ skuName item ++ LF
  ++ "  - Retail Price: " ++ price_toString (retailPrice item) ++ " "
  ++ currencyCode item ++ "/" ++ unitOfMeasure item ++ LF
  ++ "  - Region: " ++ location item ++ " (" ++ armRegionName item ++ ")" ++ LF
  ++ "  - Service: " ++ serviceName item ++ " (" ++ serviceFamily item ++ ")" ++ LF
  ++ "  - Type: " ++ type item ++ LF
  ++ "  - Meter: " ++ meterName item ++ LF
  ++ "  - ARM SKU: " ++ (if armSkuName item =? "" then "N/A" else armSkuName item).

(** The reservation term, when the item has a non-empty one. *)
Definition term_of (item : PriceItem) : option string :=
  match reservationTerm item with
  | Some t => if t =? "" then None else Some t
  | None => None
  end.

(** The savings plans of an item; none when the list is absent. *)
Definition plans_of (item : PriceItem) : list SavingsPlan.t :=
  match savingsPlan item with
  | Some plans => plans
  | None => []
  end.

(** The line of the reservation term. *)
Definition term_part (item : PriceItem) : string :=
  match term_of item with
  | Some t => LF ++ "  - Reservation Term: " ++ t
  | None => ""
  end.

(** The line of one savings plan. *)
Definition plan_line `{Host} (item : PriceItem) (plan : SavingsPlan.t) : string :=
  LF ++ "    - " ++ SavingsPlan.term plan ++ ": "
  ++ price_toString (SavingsPlan.retailPrice plan) ++ " " ++ currencyCode item.

(** The savings plans heading and lines, when there is a plan. *)
Definition plans_part `{Host} (item : PriceItem) : string :=
  match plans_of item with
  | [] => ""
  | plans => LF ++ "  - Savings Plans:" ++ concat_map (plan_line item) plans
  end.

(** * Sample hosts and inputs

    Concrete upstreams and argument bags on which the model is run. *)

(** A priced meter with the given SKU, region, service, product and price. *)
Definition mock_item (sku region service product : string) (price : Q) : PriceItem :=
  {| currencyCode := "USD"; tierMinimumUnits := 0; retailPrice := price;
     unitPrice := price; armRegionName := region; location := region;
     effectiveStartDate := "2024-01-01T00:00:00Z"; meterId := "m"; meterName := "meter";
     productId := "p"; skuId := "s"; productName := product; skuName := sku;
     serviceName := service; serviceId := "svc"; serviceFamily := "Compute";
     unitOfMeasure := "1 Hour"; type := "Consumption"; isPrimaryMeterRegion := true;
     armSkuName := sku; reservationTerm := None; savingsPlan := None |}.

(** A success response that carries one page. *)
Definition mock_page (items : list PriceItem) (next : option string) : Response :=
  {| ok := true; status := 200; statusText := "OK";
     json := Fulfilled {| BillingCurrency := "USD"; CustomerEntityId := "Default";
                          CustomerEntityType := "Retail"; Items := items;
                          NextPageLink := next; Count := Z.of_nat (length items) |} |}.

Definition lower (c : ascii) : ascii :=
  let n := nat_of_ascii c in
  if ((65 <=? n) && (n <=? 90))%nat then ascii_of_nat (n + 32) else c.

Fixpoint lower_string (s : string) : string :=
  match s with
  | EmptyString => EmptyString
  | String c rest => String (lower c) (lower_string rest)
  end.

(** A sample collation: letters compare without regard to case first, the
    way a locale-sensitive comparison does; a tie puts lower case first. *)
Definition mock_localeCompare (a b : string) : Z :=
  match String.compare (lower_string a) (lower_string b) with
  | Lt => (-1)%Z
  | Gt => 1%Z
  | Eq => match String.compare b a with
          | Lt => (-1)%Z
          | Gt => 1%Z
          | Eq => 0%Z
          end
  end.

(** A sample price printer: an integral price as its numeral, any other as
    numerator over denominator. *)
Definition mock_price_toString (q : Q) : string :=
  let r := Qred q in
  if (Z.pos (Qden r) =? 1)%Z then Number_toString (Qnum r)
  else Number_toString (Qnum r) ++ "/" ++ Number_toString (Z.pos (Qden r)).

(** A sample [StringToNumber]: decimal integer numerals, the empty string
    as zero. *)
Definition mock_StringToNumber (s : string) : number :=
  if s =? "" then Int 0
  else match NilZero.int_of_string s with
       | Some i => Int (Z.of_int i)
       | None => NaN
       end.

Definition mock_host (upstream : Request -> Settled Response) : Host :=
  {| fetch := upstream;
     localeCompare := mock_localeCompare;
     StringToNumber := mock_StringToNumber;
     price_toString := mock_price_toString |}.


(** Items told apart by their price, which counts up from [start]. *)
Definition numbered_items (start n : nat) : list PriceItem :=
  map (fun i => mock_item "Standard_D2s_v3" "eastus" "Virtual Machines" "Dv3"
                  (inject_Z (Z.of_nat i)))
      (seq start n).

Definition page (items : list PriceItem) (next : option string) : ApiResponse :=
  {| BillingCurrency := "USD"; CustomerEntityId := "Default";
     CustomerEntityType := "Retail"; Items := items;
     NextPageLink := next; Count := Z.of_nat (length items) |}.

(** Three pages of fifty items, linked in a chain. *)
Definition three_pages (request : Request) : Settled Response :=
  match request with
  | GET_url _ => Fulfilled (mock_page (numbered_items 0 50) (Some "page2"))
  | GET_link link =>
      if link =? "page2" then Fulfilled (mock_page (numbered_items 50 50) (Some "page3"))
      else if link =? "page3" then Fulfilled (mock_page (numbered_items 100 50) None)
      else Rejected "fetch failed"
  end.

(** One page of three items and no link. *)
Definition one_page (request : Request) : Settled Response :=
  Fulfilled (mock_page (numbered_items 0 3) None).

(** One page of fifty items whose link is answered with a server error. *)
Definition second_page_fails (request : Request) : Settled Response :=
  match request with
  | GET_url _ => Fulfilled (mock_page (numbered_items 0 50) (Some "page2"))
  | GET_link _ =>
      Fulfilled {| ok := false; status := 500; statusText := "Internal Server Error";
                   json := Rejected "Unexpected token" |}
  end.

(** A first request that is answered with a server error. *)
Definition first_page_fails (request : Request) : Settled Response :=
  Fulfilled {| ok := false; status := 503; statusText := "Service Unavailable";
               json := Rejected "Unexpected token" |}.

(** A first page that succeeds, and a link whose fetch is rejected. *)
Definition second_fetch_rejected (request : Request) : Settled Response :=
  match request with
  | GET_url _ => Fulfilled (mock_page (numbered_items 0 50) (Some "page2"))
  | GET_link _ => Rejected "fetch failed"
  end.

(** A first page that succeeds, and a second page answered with a success
    status and a body that is not JSON. *)
Definition second_body_unreadable (request : Request) : Settled Response :=
  match request with
  | GET_url _ => Fulfilled (mock_page (numbered_items 0 50) (Some "page2"))
  | GET_link _ =>
      Fulfilled {| ok := true; status := 200; statusText := "OK";
                   json := Rejected "Unexpected token < in JSON at position 0" |}
  end.

(** A first request that is rejected. *)
Definition first_fetch_rejected (request : Request) : Settled Response :=
  Rejected "fetch failed".

(** An upstream with no prices at all. *)
Definition no_items (request : Request) : Settled Response :=
  Fulfilled (mock_page [] None).

(** Empty pages, each linking to the next, without end. *)
Definition endless_empty_pages (request : Request) : Settled Response :=
  Fulfilled (mock_page [] (Some "next")).

Definition five_thousand : gmap string JsValue := <["maxResults" := VNumber 5000]> ∅.


Definition zero_maxResults : gmap string JsValue := <["maxResults" := VNumber 0]> ∅.

(** SKU A priced 3, 1, 2 and SKU B priced 5. *)
Definition two_skus : list PriceItem :=
  [ mock_item "A" "eastus" "Virtual Machines" "Dv3" 3;
    mock_item "A" "westus" "Virtual Machines" "Dv3" 1;
    mock_item "B" "eastus" "Virtual Machines" "Ev4" 5;
    mock_item "A" "northeurope" "Virtual Machines" "Dv3" 2 ].

(** An upstream whose only page holds the given items. *)
Definition single_page (items : list PriceItem) (request : Request) : Settled Response :=
  Fulfilled (mock_page items None).

(** One service with 25 distinct products, scanned last to first. *)
Definition product_name (i : nat) : string :=
  "Product " ++ String (ascii_of_nat (65 + i)) EmptyString.

Definition twenty_five_products : list PriceItem :=
  map (fun i => mock_item "Standard_D2s_v3" "eastus" "Virtual Machines" (product_name i) 1)
      (rev (seq 0 25)).

(** Two names that the locale comparison and the code-unit comparison order
    differently, once as service names and once as product names. *)
Definition service_bus_and_sql : list PriceItem :=
  [ mock_item "S0" "eastus" "SQL Database" "Service Bus" 1;
    mock_item "S0" "eastus" "SQL Database" "SQL Database" 1;
    mock_item "Standard" "eastus" "Service Bus" "Premium" 1 ].

(** * Properties *)

(** ** Loops that push onto an array *)

Lemma fold_left_push_filter {A B} (p : A -> bool) (f : A -> B) (l : list A) (acc : list B) :
  fold_left (fun acc x => if p x then Array_push acc (f x) else acc) l acc
  = (acc ++ map f (List.filter p l))%list.
Proof.
  revert acc. induction l as [|x l IH]; intros acc; simpl.
  - now rewrite app_nil_r.
  - rewrite IH. destruct (p x); simpl; [|reflexivity].
    unfold Array_push. now rewrite <- app_assoc.
Qed.

Lemma fold_left_ext {A B} (f g : B -> A -> B) (l : list A) (acc : B) :
  (forall b a, f b a = g b a) -> fold_left f l acc = fold_left g l acc.
Proof.
  intros E. revert acc. induction l as [|x l IH]; intros acc; simpl; [reflexivity|].
  now rewrite E, IH.
Qed.

(** ** Strings *)

Lemma append_cons (c : ascii) (s t : string) : String c s ++ t = String c (s ++ t).
Proof. reflexivity. Qed.

Lemma append_nil_l (s : string) : "" ++ s = s.
Proof. reflexivity. Qed.

Lemma append_nil_r (s : string) : s ++ "" = s.
Proof. induction s as [|c s IH]; [reflexivity|]. now rewrite append_cons, IH. Qed.

Lemma append_assoc (s t u : string) : (s ++ t) ++ u = s ++ (t ++ u).
Proof. induction s as [|c s IH]; [reflexivity|]. now rewrite !append_cons, IH. Qed.

(** A loop that appends one rendered string per element. *)
Lemma fold_left_append {A} (f : A -> string) (l : list A) (acc : string) :
  fold_left (fun acc x => acc ++ f x) l acc = acc ++ concat_map f l.
Proof.
  revert acc. induction l as [|x l IH]; intros acc; simpl.
  - now rewrite append_nil_r.
  - now rewrite IH, append_assoc.
Qed.

(** ** The filter builder *)

Lemma buildFilter_join (params : gmap string JsValue) :
  buildFilter params
  = join " and " (map (eq_clause params) (supplied_fields params) ++ custom_clause params).
Proof.
  unfold buildFilter, custom_clause, supplied_fields.
  assert (E : forall acc,
    fold_left
      (fun (filters : list string) (entry : string * string) =>
         let (param, field) := entry in
         if truthy (params !! param)
         then Array_push filters (field ++ " eq '" ++ ToString (params !! param) ++ "'")
         else filters) simpleFilters acc
    = fold_left
        (fun acc x => if truthy (params !! fst x) then Array_push acc (eq_clause params x)
                      else acc) simpleFilters acc).
  { intros acc. apply fold_left_ext. intros filters [param field]. reflexivity. }
  rewrite E, fold_left_push_filter. simpl app at 1.
  destruct (truthy (params !! "customFilter")).
  - reflexivity.
  - now rewrite app_nil_r.
Qed.



Example buildFilter_empty : buildFilter ∅ = "".
Proof. vm_compute. reflexivity. Qed.

Example buildFilter_three :
  buildFilter (<["customFilter" := VString "contains(meterName, 'Spot')"]>
                 (<["armRegionName" := VString "eastus"]>
                    (<["serviceName" := VString "Virtual Machines"]> ∅)))
  = "serviceName eq 'Virtual Machines' and armRegionName eq 'eastus' and contains(meterName, 'Spot')".
Proof. vm_compute. reflexivity. Qed.

Example buildFilter_skips_empty :
  buildFilter (<["skuName" := VString ""]> (<["priceType" := VString "Reservation"]> ∅))
  = "priceType eq 'Reservation'".
Proof. vm_compute. reflexivity. Qed.

(** ** The paginated fetcher *)

Lemma queryAzurePrices_eq `{Host} (params : gmap string JsValue) (log : list Request) :
  queryAzurePrices params log
  = match fetch (initial_request params) with
    | Fulfilled response =>
        if negb (ok response)
        then (Thrown (api_error response), log ++ [initial_request params])%list
        else match json response with
             | Fulfilled body => (Returned body, log ++ [initial_request params])%list
             | Rejected reason => (Thrown reason, log ++ [initial_request params])%list
             end
    | Rejected reason => (Thrown reason, log ++ [initial_request params])%list
    end.
Proof.
  unfold queryAzurePrices, bind, await_fetch. fold (initial_request params).
  destruct (fetch (initial_request params)) as [response|reason]; simpl; [|reflexivity].
  destruct (ok response); simpl; [|reflexivity].
  destruct (json response); reflexivity.
Qed.

Lemma Array_slice0_nonneg {A} (cap : Z) (array : list A) :
  (0 <= cap)%Z -> Array_slice0 (Int cap) array = firstn (Z.to_nat cap) array.
Proof.
  intros Hcap. unfold Array_slice0. simpl.
  destruct (Z.ltb_spec cap 0) as [Hlt|_]; [lia|].
  destruct (Z.le_ge_cases cap (Z.of_nat (length array))) as [Hle|Hge].
  - now rewrite Z.min_l.
  - rewrite Z.min_r by lia. rewrite Nat2Z.id.
    rewrite !firstn_all2; [reflexivity|lia|lia].
Qed.

Lemma firstn_app_full {A} (n : nat) (l more : list A) :
  (n <= length l)%nat -> firstn n (l ++ more) = firstn n l.
Proof.
  intros Hn. rewrite firstn_app.
  replace (n - length l)%nat with 0%nat by lia. simpl. apply app_nil_r.
Qed.

(** The loop on a served chain: whatever it has accumulated when it stops,
    the slice is the capped prefix of the whole sequence. *)
Lemma pagination_loop_serves `{Host} (cap : Z) (rest : list ApiResponse) :
  (0 <= cap)%Z ->
  forall response items fuel log,
    serves response rest -> (length rest < fuel)%nat ->
    exists items' log',
      pagination_loop fuel (Int cap) response items log = (Returned items', log')
      /\ Array_slice0 (Int cap) items'
         = firstn (Z.to_nat cap) (items ++ arrival_order rest).
Proof.
  intros Hcap. induction rest as [|next rest IH]; intros response items fuel log Hs Hfuel.
  - exists items. unfold arrival_order; simpl. rewrite app_nil_r.
    destruct fuel as [|fuel]; [lia|].
    destruct Hs as [Hnone|[Hempty|(link & r & Hlink & Hfetch & Hok)]].
    + exists log. simpl. rewrite Hnone. split; [reflexivity|now apply Array_slice0_nonneg].
    + exists log. simpl. rewrite Hempty. simpl.
      split; [reflexivity|now apply Array_slice0_nonneg].
    + simpl. rewrite Hlink.
      destruct (negb (link =? "") && (Z.of_nat (length items) <? cap)%Z).
      * exists (log ++ [GET_link link])%list.
        unfold bind, await_fetch. rewrite Hfetch. simpl. rewrite Hok. simpl.
        split; [reflexivity|now apply Array_slice0_nonneg].
      * exists log. split; [reflexivity|now apply Array_slice0_nonneg].
  - destruct Hs as [(link & r & Hlink & Hne & Hfetch & Hok & Hjson) Hrest].
    destruct fuel as [|fuel]; [simpl in Hfuel; lia|].
    simpl. rewrite Hlink.
    apply String.eqb_neq in Hne. rewrite Hne. simpl negb. simpl andb.
    destruct (Z.ltb_spec (Z.of_nat (length items)) cap) as [Hlt|Hge].
    + unfold bind at 1. unfold await_fetch. rewrite Hfetch. simpl.
      rewrite Hok. simpl. unfold bind at 1. rewrite Hjson. simpl.
      destruct (IH next (Array_push_all items (Items next)) fuel (log ++ [GET_link link])%list)
        as (items' & log' & Hrun & Hslice); [exact Hrest|simpl in Hfuel; lia|].
      exists items', log'. split; [exact Hrun|].
      rewrite Hslice. unfold Array_push_all, arrival_order. simpl.
      now rewrite <- app_assoc.
    + exists items, log. split; [reflexivity|].
      rewrite Array_slice0_nonneg by exact Hcap.
      symmetry. apply firstn_app_full. lia.
Qed.

Lemma fetchWithPagination_serves `{Host} (params : gmap string JsValue) (cap : Z)
    (r0 : Response) (first : ApiResponse) (rest : list ApiResponse)
    (fuel : nat) (log : list Request) :
  (0 <= cap)%Z ->
  fetch (initial_request params) = Fulfilled r0 -> ok r0 = true ->
  json r0 = Fulfilled first ->
  serves first rest -> (length rest < fuel)%nat ->
  fst (fetchWithPagination fuel params (Some (Int cap)) log)
  = Returned (firstn (Z.to_nat cap) (arrival_order (first :: rest))).
Proof.
  intros Hcap Hfetch Hok Hjson Hs Hfuel.
  unfold fetchWithPagination. unfold bind at 1.
  rewrite queryAzurePrices_eq, Hfetch, Hok, Hjson. simpl negb. cbv iota.
  destruct (pagination_loop_serves cap rest Hcap first (Array_push_all [] (Items first))
              fuel (log ++ [initial_request params])%list Hs Hfuel)
    as (items' & log' & Hrun & Hslice).
  unfold bind. simpl default. rewrite Hrun. simpl. now rewrite Hslice.
Qed.

(** C2 (as amended). For every upstream page sequence and every cap that is
    not negative, [fetchWithPagination] returns, given fuel for the pages, a
    list of length at most the cap: the prefix of that length of the items
    concatenated in page-arrival order. *)
Theorem fetchWithPagination_capped_prefix `{Host} (params : gmap string JsValue) (cap : Z)
    (r0 : Response) (first : ApiResponse) (rest : list ApiResponse)
    (fuel : nat) (log : list Request) :
  (0 <= cap)%Z ->
  fetch (initial_request params) = Fulfilled r0 -> ok r0 = true ->
  json r0 = Fulfilled first ->
  serves first rest -> (length rest < fuel)%nat ->
  exists items,
    fst (fetchWithPagination fuel params (Some (Int cap)) log) = Returned items
    /\ (Z.of_nat (length items) <= cap)%Z
    /\ items = firstn (Z.to_nat cap) (arrival_order (first :: rest)).
Proof.
  intros Hcap Hfetch Hok Hjson Hs Hfuel.
  exists (firstn (Z.to_nat cap) (arrival_order (first :: rest))).
  split; [now apply fetchWithPagination_serves with (r0 := r0)|].
  split; [|reflexivity].
  pose proof (firstn_le_length (Z.to_nat cap) (arrival_order (first :: rest))). lia.
Qed.

(** Three pages of fifty and a cap of 120: the first 120 items, in order. *)
Lemma fetchWithPagination_capped_prefix_witness :
  exists items,
    fst (fetchWithPagination (H := mock_host three_pages) 3 ∅ (Some (Int 120)) [])
    = Returned items
    /\ (Z.of_nat (length items) <= 120)%Z
    /\ items = firstn 120 (arrival_order [ page (numbered_items 0 50) (Some "page2");
                                           page (numbered_items 50 50) (Some "page3");
                                           page (numbered_items 100 50) None ]).
Proof.
  apply (fetchWithPagination_capped_prefix (H := mock_host three_pages) ∅ 120
           (mock_page (numbered_items 0 50) (Some "page2"))
           (page (numbered_items 0 50) (Some "page2"))
           [ page (numbered_items 50 50) (Some "page3");
             page (numbered_items 100 50) None ] 3 []).
  - lia.
  - reflexivity.
  - reflexivity.
  - reflexivity.
  - simpl. split.
    + exists "page2", (mock_page (numbered_items 50 50) (Some "page3")).
      repeat split; [discriminate].
    + split.
      * exists "page3", (mock_page (numbered_items 100 50) None).
        repeat split; [discriminate].
      * left. reflexivity.
  - simpl. lia.
Defined.

Example three_pages_cap_120 :
  fetchWithPagination (H := mock_host three_pages) 3 ∅ (Some (Int 120)) []
  = (Returned (numbered_items 0 120),
     [initial_request ∅; GET_link "page2"; GET_link "page3"]).
Proof. vm_compute. reflexivity. Qed.

(** A negative cap counts from the end of the first page: the list returned
    is longer than the cap. *)
Lemma fetchWithPagination_negative_cap :
  fst (fetchWithPagination (H := mock_host one_page) 0 ∅ (Some (Int (-1))) [])
  = Returned (numbered_items 0 2)
  /\ (-1 < Z.of_nat (length (numbered_items 0 2)))%Z.
Proof. split; [vm_compute; reflexivity | simpl; lia]. Qed.

Example query_azure_prices_negative_maxResults :
  exists report,
    fst (handleToolCall (H := mock_host one_page) 0 "query_azure_prices"
           (<["maxResults" := VNumber (-1)]> ∅) [])
    = Returned report
    /\ String.prefix "Found 2 price(s):" report = true.
Proof. eexists. split; [vm_compute; reflexivity | vm_compute; reflexivity]. Qed.

(** *** Errors of the fetcher *)

Lemma fetchWithPagination_initial_failure `{Host} (fuel : nat)
    (params : gmap string JsValue) (maxResults : option number) (log : list Request)
    (r0 : Response) :
  fetch (initial_request params) = Fulfilled r0 -> ok r0 = false ->
  fetchWithPagination fuel params maxResults log
  = (Thrown (api_error r0), (log ++ [initial_request params])%list).
Proof.
  intros Hfetch Hok. unfold fetchWithPagination. unfold bind at 1.
  now rewrite queryAzurePrices_eq, Hfetch, Hok.
Qed.

(** Over an upstream that answers every request, the loop throws nothing. *)
Lemma pagination_loop_no_throw `{H : Host} :
  answers_http H ->
  forall fuel maxResults response items log message,
    fst (pagination_loop fuel maxResults response items log) <> Thrown message.
Proof.
  intros Hhttp. induction fuel as [|fuel IH]; intros maxResults response items log message.
  - simpl. destruct (NextPageLink response) as [link|]; [|discriminate].
    destruct (negb (link =? "") && length_lt (length items) maxResults); discriminate.
  - simpl. destruct (NextPageLink response) as [link|]; [|discriminate].
    destruct (negb (link =? "") && length_lt (length items) maxResults); [|discriminate].
    unfold bind at 1. unfold await_fetch.
    destruct (Hhttp (GET_link link)) as (r & Hfetch & Hbody). rewrite Hfetch. simpl.
    destruct (ok r) eqn:Hok; simpl; [|discriminate].
    destruct (Hbody eq_refl) as (body & Hjson).
    unfold bind at 1. rewrite Hjson. simpl. apply IH.
Qed.

Lemma bind_raises {A B} (m : Async A) (k : A -> Async B) (log : list Request)
    (reason : string) :
  fst (m log) = Thrown reason -> fst (bind m k log) = Thrown reason.
Proof.
  intros Hm. unfold bind. destruct (m log) as [[a|e|] log1]; simpl in *; congruence.
Qed.

Lemma last_cons_default {A} (l : list A) (a d : A) :
  List.last (a :: l) d = List.last l a.
Proof.
  revert a d. induction l as [|b l IH]; intros a d; [reflexivity|].
  change (List.last (a :: b :: l) d) with (List.last (b :: l) d).
  now rewrite !IH.
Qed.

(** The loop on a chain of pages whose next fetch fails: it gets to that
    fetch, since the cap is not reached before, and the failure is thrown. *)
Lemma pagination_loop_raises `{Host} (cap : Z) (reason : string)
    (rest : list ApiResponse) :
  forall response items fuel log,
    linked response rest -> next_fetch_raises (List.last rest response) reason ->
    (Z.of_nat (length items + length (arrival_order rest)) < cap)%Z ->
    (length rest < fuel)%nat ->
    fst (pagination_loop fuel (Int cap) response items log) = Thrown reason.
Proof.
  induction rest as [|next rest IH]; intros response items fuel log Hl Hraise Hcap Hfuel.
  - destruct Hraise as (link & Hlink & Hne & Hfail). simpl in Hlink, Hne, Hfail.
    destruct fuel as [|fuel]; [lia|].
    unfold arrival_order in Hcap. simpl in Hcap.
    simpl pagination_loop. rewrite Hlink.
    apply String.eqb_neq in Hne. rewrite Hne. cbn [negb andb]. simpl length_lt.
    assert ((Z.of_nat (length items) <? cap)%Z = true) as -> by (apply Z.ltb_lt; lia).
    unfold bind at 1. unfold await_fetch.
    destruct Hfail as [Hrejected|(r & Hfetch & Hok & Hjson)].
    + now rewrite Hrejected.
    + rewrite Hfetch. simpl. rewrite Hok. simpl. unfold bind. now rewrite Hjson.
  - destruct Hl as [(link & r & Hlink & Hne & Hfetch & Hok & Hjson) Hrest].
    destruct fuel as [|fuel]; [simpl in Hfuel; lia|].
    unfold arrival_order in Hcap. simpl concat in Hcap. rewrite length_app in Hcap.
    simpl pagination_loop. rewrite Hlink.
    apply String.eqb_neq in Hne. rewrite Hne. cbn [negb andb]. simpl length_lt.
    assert ((Z.of_nat (length items) <? cap)%Z = true) as -> by (apply Z.ltb_lt; lia).
    unfold bind at 1. unfold await_fetch. rewrite Hfetch. simpl.
    rewrite Hok. simpl. unfold bind at 1. rewrite Hjson. simpl.
    apply IH.
    + exact Hrest.
    + now rewrite last_cons_default in Hraise.
    + unfold Array_push_all, arrival_order. rewrite length_app. lia.
    + simpl in Hfuel. lia.
Qed.

(** C3 (as amended). A first request answered with a non-success status makes
    [fetchWithPagination] throw the error that carries the status code and the
    reason phrase.  Over an upstream that answers every request with an HTTP
    response whose body can be read on success, it throws if and only if the
    first request is answered with a non-success status.  A non-success status
    on a later page throws nothing: the items accumulated so far are
    returned.  A fetch that is rejected, or a success body that cannot be
    read, throws that failure's error, on the first page and on whichever
    later page the loop gets to, that is after any chain of linked pages
    read with success whose items stay below the cap, given or default. *)
Theorem fetchWithPagination_errors `{H : Host} (fuel : nat)
    (params : gmap string JsValue) (maxResults : option number) (log : list Request) :
  (forall r0,
     fetch (initial_request params) = Fulfilled r0 -> ok r0 = false ->
     fetchWithPagination fuel params maxResults log
     = (Thrown ("API request failed: " ++ Number_toString (status r0) ++ " " ++ statusText r0),
        (log ++ [initial_request params])%list))
  /\ (answers_http H ->
      ((exists message, fst (fetchWithPagination fuel params maxResults log) = Thrown message)
       <-> (exists r0, fetch (initial_request params) = Fulfilled r0 /\ ok r0 = false)))
  /\ (forall cap r0 first rest,
        maxResults = Some (Int cap) ->
        fetch (initial_request params) = Fulfilled r0 -> ok r0 = true ->
        json r0 = Fulfilled first ->
        serves first rest -> next_fetch_fails (List.last rest first) ->
        (Z.of_nat (length (arrival_order (first :: rest))) < cap)%Z ->
        (length rest < fuel)%nat ->
        fst (fetchWithPagination fuel params maxResults log)
        = Returned (arrival_order (first :: rest)))
  /\ (forall reason,
        fetch (initial_request params) = Rejected reason ->
        fetchWithPagination fuel params maxResults log
        = (Thrown reason, (log ++ [initial_request params])%list))
  /\ (forall r0 reason,
        fetch (initial_request params) = Fulfilled r0 -> ok r0 = true ->
        json r0 = Rejected reason ->
        fetchWithPagination fuel params maxResults log
        = (Thrown reason, (log ++ [initial_request params])%list))
  /\ (forall cap r0 first rest reason,
        default (Int 100) maxResults = Int cap ->
        fetch (initial_request params) = Fulfilled r0 -> ok r0 = true ->
        json r0 = Fulfilled first ->
        linked first rest -> next_fetch_raises (List.last rest first) reason ->
        (Z.of_nat (length (arrival_order (first :: rest))) < cap)%Z ->
        (length rest < fuel)%nat ->
        fst (fetchWithPagination fuel params maxResults log) = Thrown reason).
Proof.
  split; [intros r0; apply fetchWithPagination_initial_failure|].
  split.
  { intros Hhttp. split.
    + intros [message Hthrown].
      destruct (Hhttp (initial_request params)) as (r0 & Hfetch & Hbody).
      exists r0. split; [exact Hfetch|].
      destruct (ok r0) eqn:Hok; [exfalso|reflexivity].
      destruct (Hbody eq_refl) as (body & Hjson).
      revert Hthrown. unfold fetchWithPagination. unfold bind at 1.
      rewrite queryAzurePrices_eq, Hfetch, Hok, Hjson. simpl negb. cbv iota.
      unfold bind.
      pose proof (pagination_loop_no_throw Hhttp fuel (default (Int 100) maxResults) body
                    (Array_push_all [] (Items body)) (log ++ [initial_request params])%list)
        as Hloop.
      destruct (pagination_loop fuel (default (Int 100) maxResults) body
                  (Array_push_all [] (Items body)) (log ++ [initial_request params])%list)
        as [[items|e|] log']; simpl in *; try discriminate.
      intros Heq. now apply (Hloop e).
    + intros (r0 & Hfetch & Hok). exists (api_error r0).
      now rewrite (fetchWithPagination_initial_failure fuel params maxResults log r0). }
  split.
  { intros cap r0 first rest -> Hfetch Hok Hjson Hs _ Hlen Hfuel.
    rewrite (fetchWithPagination_serves params cap r0 first rest fuel log);
      try assumption; [|lia].
    f_equal. apply firstn_all2. lia. }
  split.
  { intros reason Hfetch. unfold fetchWithPagination. unfold bind at 1.
    now rewrite queryAzurePrices_eq, Hfetch. }
  split.
  { intros r0 reason Hfetch Hok Hjson. unfold fetchWithPagination. unfold bind at 1.
    now rewrite queryAzurePrices_eq, Hfetch, Hok, Hjson. }
  intros cap r0 first rest reason Hcap Hfetch Hok Hjson Hl Hraise Hlen Hfuel.
  unfold fetchWithPagination. unfold bind at 1.
  rewrite queryAzurePrices_eq, Hfetch, Hok, Hjson. cbn [negb].
  apply bind_raises. rewrite Hcap.
  apply (pagination_loop_raises cap reason rest); try assumption.
  unfold Array_push_all. simpl app.
  unfold arrival_order in *. simpl concat in Hlen. rewrite length_app in Hlen.
  exact Hlen.
Qed.

Lemma first_page_fails_answers : answers_http (mock_host first_page_fails).
Proof.
  intros request. eexists. split; [reflexivity|]. intros Hok. discriminate Hok.
Qed.

Lemma fetchWithPagination_errors_witness :
  fst (fetchWithPagination (H := mock_host second_page_fails) 1 ∅ (Some (Int 120)) [])
  = Returned (arrival_order [page (numbered_items 0 50) (Some "page2")])
  /\ ((exists message,
         fst (fetchWithPagination (H := mock_host first_page_fails) 1 ∅ (Some (Int 120)) [])
         = Thrown message)
      <-> (exists r0,
             fetch (Host := mock_host first_page_fails) (initial_request ∅) = Fulfilled r0
             /\ ok r0 = false))
  /\ fetchWithPagination (H := mock_host first_fetch_rejected) 1 ∅ (Some (Int 120)) []
     = (Thrown "fetch failed", ([] ++ [initial_request ∅])%list)
  /\ fst (fetchWithPagination (H := mock_host second_fetch_rejected) 1 ∅ (Some (Int 120)) [])
     = Thrown "fetch failed"
  /\ fst (fetchWithPagination (H := mock_host second_body_unreadable) 1 ∅
            (Some (Int 120)) [])
     = Thrown "Unexpected token < in JSON at position 0".
Proof.
  split; [|split; [|split; [|split]]].
  - apply (proj1 (proj2 (proj2 (fetchWithPagination_errors
                                  (H := mock_host second_page_fails)
                                  1 ∅ (Some (Int 120)) [])))
             120%Z (mock_page (numbered_items 0 50) (Some "page2"))
             (page (numbered_items 0 50) (Some "page2")) []).
    + reflexivity.
    + reflexivity.
    + reflexivity.
    + reflexivity.
    + right. right.
      exists "page2", {| ok := false; status := 500; statusText := "Internal Server Error";
                         json := Rejected "Unexpected token" |}.
      repeat split.
    + exists "page2", {| ok := false; status := 500; statusText := "Internal Server Error";
                         json := Rejected "Unexpected token" |}.
      repeat split. discriminate.
    + vm_compute. reflexivity.
    + simpl. lia.
  - apply (proj1 (proj2 (fetchWithPagination_errors (H := mock_host first_page_fails)
                           1 ∅ (Some (Int 120)) []))).
    exact first_page_fails_answers.
  - apply (proj1 (proj2 (proj2 (proj2 (fetchWithPagination_errors
                                         (H := mock_host first_fetch_rejected)
                                         1 ∅ (Some (Int 120)) []))))).
    reflexivity.
  - apply (proj2 (proj2 (proj2 (proj2 (proj2 (fetchWithPagination_errors
                                                (H := mock_host second_fetch_rejected)
                                                1 ∅ (Some (Int 120)) [])))))
             120%Z (mock_page (numbered_items 0 50) (Some "page2"))
             (page (numbered_items 0 50) (Some "page2")) [] "fetch failed").
    + reflexivity.
    + reflexivity.
    + reflexivity.
    + reflexivity.
    + exact I.
    + exists "page2". split; [reflexivity|]. split; [discriminate|]. now left.
    + vm_compute. reflexivity.
    + simpl. lia.
  - apply (proj2 (proj2 (proj2 (proj2 (proj2 (fetchWithPagination_errors
                                                (H := mock_host second_body_unreadable)
                                                1 ∅ (Some (Int 120)) [])))))
             120%Z (mock_page (numbered_items 0 50) (Some "page2"))
             (page (numbered_items 0 50) (Some "page2")) []
             "Unexpected token < in JSON at position 0").
    + reflexivity.
    + reflexivity.
    + reflexivity.
    + reflexivity.
    + exact I.
    + exists "page2". split; [reflexivity|]. split; [discriminate|]. right.
      eexists. repeat split.
    + vm_compute. reflexivity.
    + simpl. lia.
Defined.

Example second_page_fails_first_page_returned :
  fetchWithPagination (H := mock_host second_page_fails) 1 ∅ (Some (Int 120)) []
  = (Returned (numbered_items 0 50), [initial_request ∅; GET_link "page2"]).
Proof. vm_compute. reflexivity. Qed.

Example first_page_fails_error :
  fetchWithPagination (H := mock_host first_page_fails) 1 ∅ (Some (Int 120)) []
  = (Thrown "API request failed: 503 Service Unavailable", [initial_request ∅]).
Proof. vm_compute. reflexivity. Qed.

(** The first request is answered with a success status and the call throws
    all the same: the fetch of the second page is rejected. *)
Lemma fetchWithPagination_rejected_fetch_throws :
  fst (fetchWithPagination (H := mock_host second_fetch_rejected) 1 ∅ (Some (Int 120)) [])
  = Thrown "fetch failed"
  /\ exists r0,
       fetch (Host := mock_host second_fetch_rejected) (initial_request ∅) = Fulfilled r0
       /\ ok r0 = true.
Proof.
  split; [vm_compute; reflexivity|].
  eexists. split; reflexivity.
Qed.

(** *** The log of the fetcher *)

Lemma pagination_loop_log `{Host} (fuel : nat) :
  forall maxResults response items log,
    exists more, snd (pagination_loop fuel maxResults response items log) = (log ++ more)%list.
Proof.
  induction fuel as [|fuel IH]; intros maxResults response items log.
  - exists []. rewrite app_nil_r. simpl.
    destruct (NextPageLink response) as [link|]; [|reflexivity].
    destruct (negb (link =? "") && length_lt (length items) maxResults); reflexivity.
  - simpl. destruct (NextPageLink response) as [link|];
      [|exists []; now rewrite app_nil_r].
    destruct (negb (link =? "") && length_lt (length items) maxResults);
      [|exists []; now rewrite app_nil_r].
    unfold bind at 1. unfold await_fetch.
    destruct (fetch (GET_link link)) as [r|reason]; simpl; [|now exists [GET_link link]].
    destruct (ok r); simpl; [|now exists [GET_link link]].
    unfold bind at 1.
    destruct (json r) as [body|reason]; simpl; [|now exists [GET_link link]].
    destruct (IH maxResults body (Array_push_all items (Items body))
                (log ++ [GET_link link])%list) as [more Hmore].
    exists (GET_link link :: more). rewrite Hmore. rewrite <- app_assoc. reflexivity.
Qed.

(** Every run of the fetcher issues its first request. *)
Lemma fetchWithPagination_log `{Host} (fuel : nat) (params : gmap string JsValue)
    (maxResults : option number) (log : list Request) :
  exists more,
    snd (fetchWithPagination fuel params maxResults log)
    = (log ++ initial_request params :: more)%list.
Proof.
  unfold fetchWithPagination. unfold bind at 1. rewrite queryAzurePrices_eq.
  destruct (fetch (initial_request params)) as [r0|reason]; [|now exists []].
  destruct (ok r0); cbn [negb]; [|now exists []].
  destruct (json r0) as [body|reason]; [|now exists []].
  unfold bind.
  destruct (pagination_loop_log fuel (default (Int 100) maxResults) body
              (Array_push_all [] (Items body)) (log ++ [initial_request params])%list)
    as [more Hmore].
  exists more.
  destruct (pagination_loop fuel (default (Int 100) maxResults) body
              (Array_push_all [] (Items body)) (log ++ [initial_request params])%list)
    as [[items|e|] log']; unfold ret; simpl in *; subst log'; now rewrite <- app_assoc.
Qed.

Lemma bind_log {A B} (m : Async A) (k : A -> Async B) (log : list Request) (more : list Request) :
  snd (m log) = (log ++ more)%list ->
  (forall a log', exists more', snd (k a log') = (log' ++ more')%list) ->
  exists more', snd (bind m k log) = (log ++ more ++ more')%list.
Proof.
  intros Hm Hk. unfold bind.
  destruct (m log) as [[a|e|] log']; simpl in *; subst log'.
  - destruct (Hk a (log ++ more)%list) as [more' Hmore']. exists more'.
    rewrite Hmore'. now rewrite <- app_assoc.
  - exists []. now rewrite app_nil_r.
  - exists []. now rewrite app_nil_r.
Qed.

(** ** The comparison report on no items *)

Lemma compare_report_nil `{Host} : compare_report [] = "## VM Price Comparison" ++ LF ++ LF.
Proof. reflexivity. Qed.

(** C1. The code at an input with no items left: the comparison tool returns
    the comparison header alone, which is not the fixed message the claim
    names. *)
Theorem compare_vm_prices_empty_returns_header :
  fst (handleToolCall (H := mock_host no_items) 0 "compare_vm_prices" ∅ [])
  = Returned ("## VM Price Comparison" ++ LF ++ LF)
  /\ fst (handleToolCall (H := mock_host one_page) 0 "compare_vm_prices"
            (<["regions" := VArray [VString "westeurope"]]> ∅) [])
     = Returned ("## VM Price Comparison" ++ LF ++ LF)
  /\ "## VM Price Comparison" ++ LF ++ LF
     <> "No VM prices found for the specified criteria.".
Proof.
  split; [vm_compute; reflexivity|].
  split; [vm_compute; reflexivity|].
  discriminate.
Qed.

(** ** The family enumeration *)

Lemma includes_string_spec (list : list string) (v : option JsValue) :
  includes_string list v = true <-> exists s, v = Some (VString s) /\ In s list.
Proof.
  unfold includes_string. split.
  - destruct v as [[]|]; try discriminate. intros Hex.
    apply existsb_exists in Hex as (member & Hin & Heq).
    apply String.eqb_eq in Heq. subst member. now exists s.
  - intros (s & -> & Hin). apply existsb_exists. exists s.
    split; [exact Hin|apply String.eqb_refl].
Qed.

Lemma not_a_family_includes (v : option JsValue) :
  not_a_family v <-> includes_string SERVICE_FAMILIES v = false.
Proof.
  split.
  - intros Hnot. destruct (includes_string SERVICE_FAMILIES v) eqn:E; [|reflexivity].
    apply includes_string_spec in E as (s & Hv & Hin). now destruct (Hnot s Hv).
  - intros E s Hv Hin.
    assert (includes_string SERVICE_FAMILIES v = true) as E'
      by (apply includes_string_spec; now exists s).
    congruence.
Qed.




Example unknown_family_message_text :
  unknown_family_message (Some (VString "Compte"))
  = "Unknown service family: " ++ DQUOTE ++ "Compte" ++ DQUOTE
    ++ ". Use get_service_families to see valid options.".
Proof. reflexivity. Qed.



Example get_service_families_text :
  get_service_families
  = "## Azure Service Families" ++ LF ++ LF
    ++ "The following service families can be used to filter Azure prices:" ++ LF ++ LF
    ++ "- Analytics" ++ LF ++ "- Azure Arc" ++ LF ++ "- Azure Communication Services" ++ LF
    ++ "- Azure Security" ++ LF ++ "- Azure Stack" ++ LF ++ "- Compute" ++ LF
    ++ "- Containers" ++ LF ++ "- Data" ++ LF ++ "- Databases" ++ LF
    ++ "- Developer Tools" ++ LF ++ "- Dynamics" ++ LF ++ "- Gaming" ++ LF
    ++ "- Integration" ++ LF ++ "- Internet of Things" ++ LF
    ++ "- Management and Governance" ++ LF ++ "- Microsoft Syntex" ++ LF
    ++ "- Mixed Reality" ++ LF ++ "- Networking" ++ LF ++ "- Other" ++ LF
    ++ "- Power Platform" ++ LF ++ "- Quantum Computing" ++ LF ++ "- Security" ++ LF
    ++ "- Storage" ++ LF ++ "- Telecommunications" ++ LF ++ "- Web" ++ LF
    ++ "- Windows Virtual Desktop".
Proof. vm_compute. reflexivity. Qed.

(** ** The default of [maxResults] *)

(** C10. A [maxResults] of 0, like any falsy value, is not a cap of zero: the
    raw query runs with the default cap 100 and the discovery tool with the
    default cap 500, each below its hard cap. *)
Theorem maxResults_zero_is_default `{Host} (fuel : nat) (args : gmap string JsValue)
    (log : list Request) :
  truthy (Some (VNumber 0)) = false
  /\ (truthy (args !! "maxResults") = false ->
      handleToolCall fuel "query_azure_prices" args log
      = (items <- fetchWithPagination fuel args (Some (Int 100)) ;;
         ret (formatPriceItems items)) log)
  /\ (truthy (args !! "maxResults") = false ->
      forall family, args !! "serviceFamily" = Some (VString family) ->
      In family SERVICE_FAMILIES ->
      handleToolCall fuel "get_services_by_family" args log
      = (items <- fetchWithPagination fuel (<["serviceFamily" := VString family]> ∅)
                    (Some (Int 500)) ;;
         if (length items =? 0)%nat
         then ret ("No services found for service family: " ++ family)
         else ret (services_report family items)) log)
  /\ Math_min (Int 100) 1000 = Int 100
  /\ Math_min (Int 500) 2000 = Int 500.
Proof.
  split; [reflexivity|]. split; [|split; [|split; reflexivity]].
  - intros Hfalsy. unfold handleToolCall. simpl. unfold query_azure_prices, or_else.
    now rewrite Hfalsy.
  - intros Hfalsy family Hfamily Hin.
    assert (includes_string SERVICE_FAMILIES (args !! "serviceFamily") = true) as Hinc
      by (apply includes_string_spec; now exists family).
    unfold handleToolCall. simpl. unfold get_services_by_family, or_else.
    rewrite Hinc, Hfalsy, Hfamily. reflexivity.
Qed.

Lemma maxResults_zero_is_default_witness :
  handleToolCall (H := mock_host one_page) 0 "query_azure_prices" zero_maxResults []
  = (items <- fetchWithPagination (H := mock_host one_page) 0 zero_maxResults
                (Some (Int 100)) ;;
     ret (formatPriceItems (H := mock_host one_page) items)) [].
Proof.
  apply (proj1 (proj2 (maxResults_zero_is_default (H := mock_host one_page) 0
                         zero_maxResults []))).
  vm_compute. reflexivity.
Defined.

Example maxResults_zero_returns_all_three :
  exists report,
    fst (handleToolCall (H := mock_host one_page) 0 "query_azure_prices" zero_maxResults [])
    = Returned report
    /\ String.prefix "Found 3 price(s):" report = true.
Proof. eexists. split; vm_compute; reflexivity. Qed.

Example maxResults_zero_discovery_scans_150 :
  exists report,
    fst (handleToolCall (H := mock_host three_pages) 3 "get_services_by_family"
           (<["maxResults" := VNumber 0]> (<["serviceFamily" := VString "Compute"]> ∅)) [])
    = Returned report
    /\ String.index 0 "from 150 price records" report <> None.
Proof. eexists. split; [vm_compute; reflexivity|vm_compute; discriminate]. Qed.

(** ** The request dispatcher *)

Lemma pagination_loop_terminates `{Host} (n : nat) :
  forall fuel maxResults response items log,
    chain_within n response -> (n <= fuel)%nat ->
    fst (pagination_loop fuel maxResults response items log) <> Diverged.
Proof.
  induction n as [|n IH]; intros fuel maxResults response items log Hchain Hfuel.
  - destruct fuel; simpl in *; destruct (NextPageLink response) as [link|];
      try discriminate;
      (destruct Hchain as [->|[]]; simpl; discriminate).
  - destruct fuel as [|fuel]; [lia|].
    simpl in *. destruct (NextPageLink response) as [link|]; [|discriminate].
    destruct (negb (link =? "") && length_lt (length items) maxResults) eqn:Hcond;
      [|discriminate].
    destruct Hchain as [->|Hchain]; [discriminate Hcond|].
    unfold bind at 1. unfold await_fetch.
    destruct (fetch (GET_link link)) as [r|reason]; simpl; [|discriminate].
    destruct (ok r); simpl; [|discriminate].
    destruct Hchain as [Hok|Hchain]; [discriminate Hok|].
    unfold bind at 1.
    destruct (json r) as [next|reason]; simpl; [|discriminate].
    apply IH; [exact Hchain|lia].
Qed.

Lemma fetchWithPagination_terminates `{H : Host} (n fuel : nat)
    (params : gmap string JsValue) (maxResults : option number) (log : list Request) :
  finite_upstream n H -> (n <= fuel)%nat ->
  fst (fetchWithPagination fuel params maxResults log) <> Diverged.
Proof.
  intros Hfinite Hfuel. unfold fetchWithPagination. unfold bind at 1.
  rewrite queryAzurePrices_eq.
  destruct (fetch (initial_request params)) as [r0|reason] eqn:Hfetch; [|discriminate].
  destruct (ok r0); cbn [negb]; [|discriminate].
  destruct (json r0) as [body|reason] eqn:Hjson; [|discriminate].
  unfold bind.
  pose proof (pagination_loop_terminates n fuel (default (Int 100) maxResults) body
                (Array_push_all [] (Items body)) (log ++ [initial_request params])%list
                (Hfinite _ _ _ Hfetch Hjson) Hfuel) as Hloop.
  destruct (pagination_loop fuel (default (Int 100) maxResults) body
              (Array_push_all [] (Items body)) (log ++ [initial_request params])%list)
    as [[items|e|] log']; simpl in *; congruence.
Qed.

Lemma bind_terminates {A B} (m : Async A) (k : A -> Async B) (log : list Request) :
  fst (m log) <> Diverged ->
  (forall a log', fst (k a log') <> Diverged) ->
  fst (bind m k log) <> Diverged.
Proof.
  intros Hm Hk. unfold bind. destruct (m log) as [[a|e|] log']; simpl in *.
  - apply Hk.
  - discriminate.
  - congruence.
Qed.

Lemma handleToolCall_terminates `{H : Host} (n fuel : nat) (name : string)
    (args : gmap string JsValue) (log : list Request) :
  finite_upstream n H -> (n <= fuel)%nat ->
  fst (handleToolCall fuel name args log) <> Diverged.
Proof.
  intros Hfinite Hfuel. unfold handleToolCall.
  destruct (name =? "query_azure_prices").
  { apply bind_terminates; [now apply fetchWithPagination_terminates with (n := n)|].
    discriminate. }
  destruct (name =? "compare_vm_prices").
  { apply bind_terminates; [now apply fetchWithPagination_terminates with (n := n)|].
    discriminate. }
  destruct (name =? "get_service_families"); [discriminate|].
  destruct (name =? "get_reservation_prices").
  { apply bind_terminates; [now apply fetchWithPagination_terminates with (n := n)|].
    intros items log'. destruct (length items =? 0)%nat; discriminate. }
  destruct (name =? "get_services_by_family"); [|discriminate].
  unfold get_services_by_family.
  destruct (negb (includes_string SERVICE_FAMILIES (args !! "serviceFamily")));
    [discriminate|].
  apply bind_terminates; [now apply fetchWithPagination_terminates with (n := n)|].
  intros items log'. destruct (length items =? 0)%nat; discriminate.
Qed.

Lemma CallToolRequest_handler_eq `{Host} (fuel : nat) (name : string)
    (args : gmap string JsValue) (log : list Request) :
  CallToolRequest_handler fuel name args log
  = match handleToolCall fuel name args log with
    | (Returned report, log') => (Returned (text_result report), log')
    | (Thrown message, log') => (Returned (error_result message), log')
    | (Diverged, log') => (Diverged, log')
    end.
Proof.
  unfold CallToolRequest_handler, try_catch, bind.
  destruct (handleToolCall fuel name args log) as [[report|message|] log']; reflexivity.
Qed.

Lemma handleToolCall_unknown_tool `{Host} (fuel : nat) (name : string)
    (args : gmap string JsValue) (log : list Request) :
  ~ In name tools ->
  handleToolCall fuel name args log = (Thrown ("Unknown tool: " ++ name), log).
Proof.
  intros Hnot. unfold handleToolCall.
  repeat match goal with
         | |- context [(name =? ?tool)%string] =>
             destruct (String.eqb_spec name tool) as [->|_];
             [exfalso; apply Hnot; simpl; tauto|]
         end.
  reflexivity.
Qed.

(** C5 (as amended). The dispatcher never lets an exception through: a report
    becomes a text result, a thrown error becomes an error-flagged text result
    that carries its message, a tool name outside the five registered ones
    gives the error-flagged result that names it, and over an upstream whose
    link chains are finite the dispatcher, given fuel for them, yields a
    result for every tool name and argument map. *)
Theorem CallToolRequest_handler_total `{H : Host} (fuel : nat) (name : string)
    (args : gmap string JsValue) (log : list Request) :
  (forall message, fst (CallToolRequest_handler fuel name args log) <> Thrown message)
  /\ (forall report log',
        handleToolCall fuel name args log = (Returned report, log') ->
        CallToolRequest_handler fuel name args log
        = (Returned {| content := [Content.mk "text" report]; isError := None |}, log'))
  /\ (forall message log',
        handleToolCall fuel name args log = (Thrown message, log') ->
        CallToolRequest_handler fuel name args log
        = (Returned {| content := [Content.mk "text" ("Error: " ++ message)];
                       isError := Some true |}, log'))
  /\ length tools = 5%nat
  /\ (~ In name tools ->
      CallToolRequest_handler fuel name args log
      = (Returned {| content := [Content.mk "text" ("Error: Unknown tool: " ++ name)];
                     isError := Some true |}, log))
  /\ (forall n, finite_upstream n H -> (n <= fuel)%nat ->
      exists result log',
        CallToolRequest_handler fuel name args log = (Returned result, log')
        /\ exists text, content result = [Content.mk "text" text]).
Proof.
  rewrite CallToolRequest_handler_eq.
  split.
  { intros message.
    destruct (handleToolCall fuel name args log) as [[report|e|] log']; discriminate. }
  split; [now intros report log' ->|].
  split; [now intros message log' ->|].
  split; [reflexivity|].
  split.
  { intros Hnot. now rewrite handleToolCall_unknown_tool. }
  intros n Hfinite Hfuel.
  pose proof (handleToolCall_terminates n fuel name args log Hfinite Hfuel) as Hterm.
  destruct (handleToolCall fuel name args log) as [[report|e|] log']; simpl in Hterm.
  - exists (text_result report), log'. split; [reflexivity|]. now exists report.
  - exists (error_result e), log'. split; [reflexivity|]. now exists ("Error: " ++ e).
  - congruence.
Qed.

Lemma three_pages_finite : finite_upstream 2 (mock_host three_pages).
Proof.
  intros request r body Hfetch Hjson. simpl in Hfetch. unfold three_pages in Hfetch.
  destruct request as [url|link].
  - injection Hfetch as <-. injection Hjson as <-. simpl. right. simpl. right. simpl.
    right. simpl. right. exact I.
  - destruct (link =? "page2").
    + injection Hfetch as <-. injection Hjson as <-. simpl. right. simpl. right. exact I.
    + destruct (link =? "page3"); [|discriminate].
      injection Hfetch as <-. injection Hjson as <-. exact I.
Qed.

Lemma CallToolRequest_handler_total_witness :
  CallToolRequest_handler (H := mock_host three_pages) 2 "delete_everything" ∅ []
  = (Returned {| content := [Content.mk "text" "Error: Unknown tool: delete_everything"];
                 isError := Some true |}, [])
  /\ exists result log',
       CallToolRequest_handler (H := mock_host three_pages) 2 "query_azure_prices" ∅ []
       = (Returned result, log')
       /\ exists text, content result = [Content.mk "text" text].
Proof.
  split.
  - apply (proj1 (proj2 (proj2 (proj2 (proj2
             (CallToolRequest_handler_total (H := mock_host three_pages) 2
                "delete_everything" ∅ [])))))).
    compute_done.
  - apply (proj2 (proj2 (proj2 (proj2 (proj2
             (CallToolRequest_handler_total (H := mock_host three_pages) 2
                "query_azure_prices" ∅ []))))) 2%nat three_pages_finite).
    lia.
Defined.

(** Over empty pages that link on without end the loop never leaves: the
    item count stays below the cap and every link is followed. *)
Lemma pagination_loop_endless (fuel : nat) (log : list Request) :
  fst (pagination_loop (H := mock_host endless_empty_pages) fuel (Int 100)
         (page [] (Some "next")) [] log)
  = Diverged.
Proof.
  revert log. induction fuel as [|fuel IH]; intros log; [reflexivity|].
  simpl. unfold bind, await_fetch. simpl. apply IH.
Qed.

Lemma bind_returned {A B} (m : Async A) (k : A -> Async B) (log log1 : list Request) (a : A) :
  m log = (Returned a, log1) -> bind m k log = k a log1.
Proof. intros Hm. unfold bind. now rewrite Hm. Qed.

Lemma bind_diverged {A B} (m : Async A) (k : A -> Async B) (log : list Request) :
  fst (m log) = Diverged -> fst (bind m k log) = Diverged.
Proof.
  intros Hm. unfold bind. destruct (m log) as [[a|e|] log1]; simpl in *; congruence.
Qed.

Lemma handleToolCall_endless (fuel : nat) :
  fst (handleToolCall (H := mock_host endless_empty_pages) fuel "query_azure_prices" ∅ [])
  = Diverged.
Proof.
  change (fst (bind (fetchWithPagination (H := mock_host endless_empty_pages) fuel ∅
                       (Some (Int 100)))
                 (fun items =>
                    ret (formatPriceItems (H := mock_host endless_empty_pages) items)) [])
          = Diverged).
  apply bind_diverged. unfold fetchWithPagination.
  rewrite (bind_returned _ _ [] [initial_request ∅] (page [] (Some "next")))
    by (rewrite queryAzurePrices_eq; reflexivity).
  apply bind_diverged. apply pagination_loop_endless.
Qed.

(** With no fuel does the raw query come back from such an upstream: the
    dispatcher yields neither a report nor an error result. *)
Lemma CallToolRequest_handler_endless_upstream :
  ~ exists fuel result log',
      CallToolRequest_handler (H := mock_host endless_empty_pages) fuel
        "query_azure_prices" ∅ [] = (Returned result, log').
Proof.
  intros (fuel & result & log' & Hrun).
  pose proof (handleToolCall_endless fuel) as Hcall.
  rewrite CallToolRequest_handler_eq in Hrun.
  destruct (handleToolCall (H := mock_host endless_empty_pages) fuel
              "query_azure_prices" ∅ []) as [[report|e|] log''];
    simpl in Hcall; discriminate.
Qed.

Example upstream_error_becomes_error_result :
  CallToolRequest_handler (H := mock_host first_page_fails) 0 "query_azure_prices" ∅ []
  = (Returned {| content := [Content.mk "text"
                               "Error: API request failed: 503 Service Unavailable"];
                 isError := Some true |}, [initial_request ∅]).
Proof. vm_compute. reflexivity. Qed.

Example rejected_fetch_becomes_error_result :
  fst (CallToolRequest_handler (H := mock_host second_fetch_rejected) 1
         "get_reservation_prices" ∅ [])
  = Returned {| content := [Content.mk "text" "Error: fetch failed"];
                isError := Some true |}.
Proof. vm_compute. reflexivity. Qed.


(** ** Sorting *)

Section Sorting.
Context {A : Type} (compare : A -> A -> Q).

Lemma sort_insert_perm (x : A) (l : list A) :
  Permutation (sort_insert compare x l) (x :: l).
Proof.
  induction l as [|y l IH]; simpl; [reflexivity|].
  destruct (Qle_bool (compare x y) 0); [reflexivity|].
  rewrite IH. apply perm_swap.
Qed.

Lemma Array_sort_perm (l : list A) : Permutation (Array_sort compare l) l.
Proof.
  induction l as [|x l IH]; simpl; [reflexivity|].
  rewrite sort_insert_perm. now apply perm_skip.
Qed.

Hypothesis compare_total : forall a b, compare_le compare a b \/ compare_le compare b a.

Lemma sort_insert_sorted (x : A) (l : list A) :
  Sorted (compare_le compare) l -> Sorted (compare_le compare) (sort_insert compare x l).
Proof.
  induction l as [|y l IH]; intros Hsorted; simpl.
  - repeat constructor.
  - destruct (Qle_bool (compare x y) 0) eqn:Hle.
    + apply Qle_bool_iff in Hle. constructor; [exact Hsorted|]. now constructor.
    + assert (compare_le compare y x) as Hyx.
      { destruct (compare_total x y) as [Hxy|Hyx]; [|exact Hyx].
        apply Qle_bool_iff in Hxy. congruence. }
      inversion Hsorted as [|? ? Hl Hhd]; subst.
      constructor; [now apply IH|].
      destruct l as [|z l]; simpl.
      * now constructor.
      * destruct (Qle_bool (compare x z) 0); constructor;
          [exact Hyx|now inversion Hhd].
Qed.

Lemma Array_sort_sorted (l : list A) : Sorted (compare_le compare) (Array_sort compare l).
Proof.
  induction l as [|x l IH]; simpl; [constructor|now apply sort_insert_sorted].
Qed.

End Sorting.

(** Sorting entries by their key sorts the keys. *)
Lemma Array_sort_map_fst {V} (compare : string -> string -> Q) (entries : list (string * V)) :
  map fst (Array_sort (fun a b => compare (fst a) (fst b)) entries)
  = Array_sort compare (map fst entries).
Proof.
  induction entries as [|e entries IH]; simpl; [reflexivity|].
  rewrite <- IH.
  generalize (Array_sort (fun a b => compare (fst a) (fst b)) entries) as sorted.
  induction sorted as [|y sorted IHs]; simpl; [reflexivity|].
  destruct (Qle_bool (compare (fst e) (fst y)) 0); simpl; [reflexivity|].
  now rewrite IHs.
Qed.

Lemma price_compare_le (a b : PriceItem) :
  compare_le (fun a b => (retailPrice a - retailPrice b)%Q) a b <-> price_le a b.
Proof. unfold compare_le, price_le. split; intros; lra. Qed.

Lemma sort_by_price_sorted (prices : list PriceItem) :
  StronglySorted price_le
    (Array_sort (fun a b => (retailPrice a - retailPrice b)%Q) prices).
Proof.
  apply Sorted_StronglySorted.
  - intros a b c Hab Hbc. unfold price_le in *. lra.
  - eapply Sorted_ind with (P := fun l => Sorted price_le l);
      [constructor| |apply Array_sort_sorted].
    + intros a l _ IH Hhd. constructor; [exact IH|].
      destruct Hhd; constructor. now apply price_compare_le.
    + intros a b. unfold compare_le.
      destruct (Qlt_le_dec (retailPrice b) (retailPrice a)); [right|left]; lra.
Qed.

(** Strings: the default comparison orders by code units. *)
Lemma default_compare_le (a b : string) :
  compare_le default_compare a b <-> String.leb a b = true.
Proof.
  unfold compare_le, default_compare, String.leb.
  destruct (String.compare a b); split; intros; try reflexivity; try discriminate; lra.
Qed.

Lemma sort_default_sorted (strings : list string) :
  StronglySorted (fun a b => String.leb a b = true) (Array_sort default_compare strings).
Proof.
  apply Sorted_StronglySorted.
  - intros a b c Hab Hbc.
    pose proof (@transitivity _ String.le _ a b c) as Htrans.
    unfold String.le in Htrans.
    apply Is_true_true. apply Htrans; now apply Is_true_true.
  - eapply Sorted_ind with (P := fun l => Sorted (fun a b => String.leb a b = true) l);
      [constructor| |apply Array_sort_sorted].
    + intros a l _ IH Hhd. constructor; [exact IH|].
      destruct Hhd; constructor. now apply default_compare_le.
    + intros a b.
      destruct (String.leb_total a b); [left|right]; now apply default_compare_le.
Qed.

(** ** Grouping *)

Lemma mem_In (k : string) (keys : list string) : mem k keys = true <-> In k keys.
Proof.
  unfold mem. rewrite existsb_exists. split.
  - intros (k' & Hin & Heq). apply String.eqb_eq in Heq. now subst.
  - intros Hin. exists k. split; [exact Hin|apply String.eqb_refl].
Qed.

Lemma mem_filter_ne (k a : string) (keys : list string) :
  mem k (List.filter (fun k' => negb (k' =? a)) keys)
  = negb (k =? a) && mem k keys.
Proof.
  induction keys as [|x keys IH]; simpl; [now rewrite andb_false_r|].
  destruct (String.eqb_spec x a) as [->|Hxa]; simpl.
  - rewrite IH. rewrite (String.eqb_sym a k).
    destruct (k =? a); simpl; reflexivity.
  - rewrite IH. destruct (String.eqb_spec x k) as [->|Hxk]; simpl.
    + apply String.eqb_neq in Hxa. now rewrite Hxa.
    + reflexivity.
Qed.

Lemma mem_first_seen (k : string) (keys : list string) :
  mem k (first_seen keys) = mem k keys.
Proof.
  induction keys as [|a keys IH]; simpl; [reflexivity|].
  fold (mem k (List.filter (fun k' => negb (k' =? a)) (first_seen keys))).
  fold (mem k keys). rewrite mem_filter_ne, IH.
  rewrite (String.eqb_sym a k). destruct (k =? a); reflexivity.
Qed.

Lemma first_seen_NoDup (keys : list string) : NoDup (first_seen keys).
Proof.
  induction keys as [|a keys IH]; simpl; [constructor|].
  constructor.
  - rewrite list_elem_of_In, List.filter_In. intros [_ Hne].
    now rewrite String.eqb_refl in Hne.
  - apply NoDup_ListNoDup. apply List.NoDup_filter. now apply NoDup_ListNoDup.
Qed.

Lemma first_seen_snoc (keys : list string) (k : string) :
  first_seen (keys ++ [k])
  = if mem k keys then first_seen keys else (first_seen keys ++ [k])%list.
Proof.
  induction keys as [|a keys IH]; simpl; [reflexivity|].
  rewrite IH. fold (mem k keys).
  destruct (String.eqb_spec a k) as [->|Hak]; simpl.
  - destruct (mem k keys); [reflexivity|].
    rewrite List.filter_app. simpl. rewrite String.eqb_refl. simpl. now rewrite app_nil_r.
  - destruct (mem k keys); [reflexivity|].
    rewrite List.filter_app. simpl.
    assert ((k =? a) = false) as -> by (apply String.eqb_neq; congruence).
    reflexivity.
Qed.

Section Grouping.
Context {I V : Type} (key_of : I -> string) (init : V) (add : I -> V -> V).

Lemma has_map (k : string) (f : string -> V) (keys : list string) :
  JsMap.has k (map (fun k' => (k', f k')) keys) = mem k keys.
Proof.
  unfold JsMap.has, mem. induction keys as [|a keys IH]; simpl; [reflexivity|].
  now rewrite IH.
Qed.

Lemma set_fresh (k : string) (v : V) (f : string -> V) (keys : list string) :
  mem k keys = false ->
  JsMap.set k v (map (fun k' => (k', f k')) keys)
  = (map (fun k' => (k', f k')) keys ++ [(k, v)])%list.
Proof.
  induction keys as [|a keys IH]; simpl; [reflexivity|].
  intros Hmem. apply orb_false_elim in Hmem as [Hak Hmem].
  rewrite Hak. now rewrite IH.
Qed.

Lemma update_fresh (k : string) (g : V -> V) (f : string -> V) (keys : list string) :
  mem k keys = false ->
  JsMap.update k g (map (fun k' => (k', f k')) keys) = map (fun k' => (k', f k')) keys.
Proof.
  induction keys as [|a keys IH]; simpl; [reflexivity|].
  intros Hmem. apply orb_false_elim in Hmem as [Hak Hmem].
  rewrite Hak. now rewrite IH.
Qed.

Lemma update_app_fresh (k : string) (g : V -> V) (f : string -> V) (keys : list string)
    (v : V) :
  mem k keys = false ->
  JsMap.update k g (map (fun k' => (k', f k')) keys ++ [(k, v)])
  = (map (fun k' => (k', f k')) keys ++ [(k, g v)])%list.
Proof.
  induction keys as [|a keys IH]; simpl.
  - now rewrite String.eqb_refl.
  - intros Hmem. apply orb_false_elim in Hmem as [Hak Hmem].
    rewrite Hak. now rewrite IH.
Qed.

Lemma update_map (k : string) (g : V -> V) (f : string -> V) (keys : list string) :
  NoDup keys ->
  JsMap.update k g (map (fun k' => (k', f k')) keys)
  = map (fun k' => (k', if (k' =? k)%string then g (f k') else f k')) keys.
Proof.
  induction keys as [|a keys IH]; simpl; [reflexivity|].
  intros Hnodup. apply NoDup_cons in Hnodup as [Hnotin Hnodup].
  destruct (String.eqb_spec a k) as [->|Hak].
  - f_equal. apply map_ext_in. intros k' Hin.
    destruct (String.eqb_spec k' k) as [->|_]; [|reflexivity].
    exfalso. apply Hnotin. now apply list_elem_of_In.
  - now rewrite IH.
Qed.

Lemma filter_key_absent (k : string) (items : list I) :
  mem k (map key_of items) = false ->
  List.filter (fun item => (key_of item =? k)%string) items = [].
Proof.
  induction items as [|x items IH]; simpl; [reflexivity|].
  intros Hmem. apply orb_false_elim in Hmem as [Hxk Hmem].
  rewrite Hxk. now apply IH.
Qed.

Lemma grouping_grouped (items : list I) :
  fold_left (grouping_step key_of init add) items [] = grouped key_of init add items.
Proof.
  induction items as [|x items IH] using rev_ind; [reflexivity|].
  rewrite fold_left_app. simpl. rewrite IH. clear IH.
  unfold grouping_step, grouped.
  rewrite (List.map_app key_of items [x]).
  change (map key_of [x]) with [key_of x]. rewrite first_seen_snoc.
  rewrite has_map, mem_first_seen.
  destruct (mem (key_of x) (map key_of items)) eqn:Hmem; cbn [negb].
  - rewrite update_map by apply first_seen_NoDup.
    apply map_ext. intros k. f_equal.
    rewrite List.filter_app. simpl.
    rewrite (String.eqb_sym k (key_of x)).
    destruct (key_of x =? k); [|now rewrite app_nil_r].
    now rewrite fold_left_app.
  - rewrite set_fresh by now rewrite mem_first_seen.
    rewrite update_app_fresh by now rewrite mem_first_seen.
    rewrite map_app. simpl. f_equal.
    + apply map_ext_in. intros k Hin. f_equal.
      rewrite List.filter_app. simpl.
      destruct (String.eqb_spec (key_of x) k) as [Heq|_]; [|now rewrite app_nil_r].
      exfalso. subst k.
      assert (mem (key_of x) (first_seen (map key_of items)) = true) as Hin'
        by now apply mem_In.
      rewrite mem_first_seen in Hin'. congruence.
    + f_equal. f_equal. rewrite List.filter_app. simpl. rewrite String.eqb_refl.
      rewrite (filter_key_absent _ _ Hmem). reflexivity.
Qed.

End Grouping.

Lemma fold_left_push_all {A} (l acc : list A) :
  fold_left (fun v item => Array_push v item) l acc = (acc ++ l)%list.
Proof.
  revert acc. induction l as [|x l IH]; intros acc; simpl; [now rewrite app_nil_r|].
  rewrite IH. unfold Array_push. now rewrite <- app_assoc.
Qed.

(** The grouping loop, declaratively: per key in first-seen order, the items
    of that key in their order. *)
Lemma group_by_first_seen (key_of : PriceItem -> string) (items : list PriceItem) :
  group_by key_of items
  = map (fun k => (k, List.filter (fun item => key_of item =? k) items))
      (first_seen (map key_of items)).
Proof.
  unfold group_by.
  change (fold_left (grouping_step key_of [] (fun item prices => Array_push prices item))
            items []
          = map (fun k => (k, List.filter (fun item => key_of item =? k) items))
              (first_seen (map key_of items))).
  rewrite grouping_grouped. unfold grouped. apply map_ext. intros k.
  now rewrite fold_left_push_all.
Qed.

Lemma append_not_empty (c : ascii) (s t : string) : (String c s ++ t =? "") = false.
Proof. reflexivity. Qed.

(** ** The comparison report *)

Lemma Array_slice0_10 {A} (array : list A) : Array_slice0 (Int 10) array = firstn 10 array.
Proof. now rewrite Array_slice0_nonneg. Qed.

Lemma compare_report_sections `{Host} (filtered : list PriceItem) :
  compare_report filtered
  = "## VM Price Comparison" ++ LF ++ LF
    ++ concat_map sku_section
         (map (fun sku => (sku, listed_under sku filtered))
            (first_seen (map armSkuName filtered))).
Proof.
  unfold compare_report. rewrite group_by_first_seen.
  set (header := "## VM Price Comparison" ++ LF ++ LF).
  assert (Hfold : forall groups acc,
    fold_left
      (fun result (entry : string * list PriceItem) =>
         let (sku, prices) := entry in
         let result := result ++ "### " ++ sku ++ LF in
         let sorted := Array_sort (fun a b => (retailPrice a - retailPrice b)%Q) prices in
         let result :=
           fold_left
             (fun result p =>
                result ++ "- " ++ armRegionName p ++ ": " ++ price_toString (retailPrice p)
                ++ " " ++ currencyCode p ++ "/" ++ unitOfMeasure p
                ++ " (" ++ productName p ++ ")" ++ LF)
             (Array_slice0 (Int 10) sorted) result in
         result ++ LF)
      groups acc
    = acc ++ concat_map
               (fun entry : string * list PriceItem =>
                  sku_section
                    (fst entry,
                     firstn 10
                       (Array_sort (fun a b => (retailPrice a - retailPrice b)%Q)
                          (snd entry))))
               groups).
  { intros groups acc. rewrite <- fold_left_append. apply fold_left_ext.
    intros result [sku prices]. cbv zeta.
    change (fun result p =>
              result ++ "- " ++ armRegionName p ++ ": " ++ price_toString (retailPrice p)
              ++ " " ++ currencyCode p ++ "/" ++ unitOfMeasure p
              ++ " (" ++ productName p ++ ")" ++ LF)
      with (fun result p => result ++ price_line p).
    rewrite fold_left_append, Array_slice0_10. unfold sku_section. simpl fst. simpl snd.
    now rewrite !append_assoc. }
  rewrite Hfold.
  assert (Hmap : forall keys,
    concat_map
      (fun entry : string * list PriceItem =>
         sku_section
           (fst entry,
            firstn 10
              (Array_sort (fun a b => (retailPrice a - retailPrice b)%Q) (snd entry))))
      (map (fun k => (k, List.filter (fun item => armSkuName item =? k) filtered)) keys)
    = concat_map sku_section (map (fun sku => (sku, listed_under sku filtered)) keys)).
  { induction keys as [|k keys IH]; simpl; [reflexivity|]. now rewrite IH. }
  rewrite Hmap. subst header.
  set (sections := concat_map sku_section _).
  assert (((("## VM Price Comparison" ++ LF ++ LF) ++ sections) =? "") = false) as ->
    by apply append_not_empty.
  now rewrite !append_assoc.
Qed.

(** C7. The comparison report is its header followed by one section per ARM
    SKU name, the headings in first-seen order; the lines under a heading are
    the first ten of the group's items sorted ascending by retail price, one
    line per item. *)
Theorem compare_report_grouped_sorted `{Host} (filtered : list PriceItem) :
  exists groups : list (string * list PriceItem),
    compare_report filtered
    = "## VM Price Comparison" ++ LF ++ LF ++ concat_map sku_section groups
    /\ map fst groups = first_seen (map armSkuName filtered)
    /\ Forall
         (fun group =>
            exists sorted,
              Permutation sorted
                (List.filter (fun item => armSkuName item =? fst group) filtered)
              /\ StronglySorted price_le sorted
              /\ snd group = firstn 10 sorted
              /\ (length (snd group) <= 10)%nat)
         groups.
Proof.
  exists (map (fun sku => (sku, listed_under sku filtered))
            (first_seen (map armSkuName filtered))).
  split; [apply compare_report_sections|].
  split.
  - rewrite List.map_map. simpl. apply List.map_id.
  - apply List.Forall_forall. intros group Hin.
    apply List.in_map_iff in Hin as (sku & <- & _). simpl.
    exists (Array_sort (fun a b => (retailPrice a - retailPrice b)%Q)
              (List.filter (fun item => armSkuName item =? sku) filtered)).
    split; [apply Array_sort_perm|].
    split; [apply sort_by_price_sorted|].
    split; [reflexivity|].
    unfold listed_under. apply firstn_le_length.
Qed.

Example compare_report_two_skus :
  compare_report (H := mock_host no_items) two_skus
  = "## VM Price Comparison" ++ LF ++ LF
    ++ "### A" ++ LF
    ++ "- westus: 1 USD/1 Hour (Dv3)" ++ LF
    ++ "- northeurope: 2 USD/1 Hour (Dv3)" ++ LF
    ++ "- eastus: 3 USD/1 Hour (Dv3)" ++ LF
    ++ LF
    ++ "### B" ++ LF
    ++ "- eastus: 5 USD/1 Hour (Ev4)" ++ LF
    ++ LF.
Proof. vm_compute. reflexivity. Qed.

Example compare_vm_prices_two_skus :
  fst (handleToolCall (H := mock_host (single_page two_skus)) 0 "compare_vm_prices" ∅ [])
  = Returned (compare_report (H := mock_host (single_page two_skus)) two_skus)
  /\ fst (handleToolCall (H := mock_host (single_page two_skus)) 0 "compare_vm_prices"
            (<["regions" := VArray [VString "westus"; VString "northeurope"]]> ∅) [])
     = Returned ("## VM Price Comparison" ++ LF ++ LF
                 ++ "### A" ++ LF
                 ++ "- westus: 1 USD/1 Hour (Dv3)" ++ LF
                 ++ "- northeurope: 2 USD/1 Hour (Dv3)" ++ LF
                 ++ LF).
Proof. split; vm_compute; reflexivity. Qed.

Example listed_under_A :
  map retailPrice (listed_under "A" two_skus) = [1%Q; 2%Q; 3%Q]
  /\ first_seen (map armSkuName two_skus) = ["A"; "B"].
Proof. split; vm_compute; reflexivity. Qed.

Example listed_under_caps_at_ten :
  map retailPrice (listed_under "Standard_D2s_v3" (rev (numbered_items 0 25)))
  = map (fun i => inject_Z (Z.of_nat i)) (seq 0 10).
Proof. vm_compute. reflexivity. Qed.

(** ** The discovery report *)

Lemma fold_left_set_add {I} (f : I -> string) (l : list I) :
  fold_left (fun s item => JsSet.add (f item) s) l [] = first_seen (map f l).
Proof.
  induction l as [|x l IH] using rev_ind; [reflexivity|].
  rewrite fold_left_app. simpl. rewrite IH.
  rewrite (List.map_app f l [x]). change (map f [x]) with [f x].
  rewrite first_seen_snoc. unfold JsSet.add, JsSet.has. fold (mem (f x) (first_seen (map f l))).
  now rewrite mem_first_seen.
Qed.

Lemma collect_services_first_seen (items : list PriceItem) :
  collect_services items
  = map (fun service => (service, distinct_products service items))
      (first_seen (map serviceName items)).
Proof.
  unfold collect_services.
  change (fold_left
            (grouping_step serviceName [] (fun item s => JsSet.add (productName item) s))
            items []
          = map (fun service => (service, distinct_products service items))
              (first_seen (map serviceName items))).
  rewrite grouping_grouped. unfold grouped. apply map_ext. intros k.
  unfold distinct_products. now rewrite fold_left_set_add.
Qed.

Lemma concat_map_map {A B} (f : B -> string) (g : A -> B) (l : list A) :
  concat_map f (map g l) = concat_map (fun x => f (g x)) l.
Proof. induction l as [|x l IH]; simpl; [reflexivity|now rewrite IH]. Qed.

Lemma Array_slice0_20 {A} (array : list A) : Array_slice0 (Int 20) array = firstn 20 array.
Proof. now rewrite Array_slice0_nonneg. Qed.

Lemma services_report_sections `{Host} (family : string) (items : list PriceItem) :
  services_report family items
  = "## Services in " ++ DQUOTE ++ family ++ DQUOTE ++ " Family" ++ LF ++ LF
    ++ "Found " ++ Number_toString (Z.of_nat (length (listed_services items)))
    ++ " service(s) from " ++ Number_toString (Z.of_nat (length items))
    ++ " price records:" ++ LF ++ LF
    ++ concat_map service_section (listed_services items).
Proof.
  unfold services_report, listed_services.
  rewrite length_map.
  rewrite (Permutation_length (Array_sort_perm _ (collect_services items))).
  rewrite concat_map_map.
  assert (Hfold : forall entries acc,
    fold_left
      (fun result (entry : string * list string) =>
         let (serviceName, products) := entry in
         let result := result ++ "### " ++ serviceName ++ LF in
         let result :=
           result ++ "Products (" ++ Number_toString (Z.of_nat (length products)) ++ "):"
           ++ LF in
         let sortedProducts := Array_slice0 (Int 20) (Array_sort default_compare products) in
         let result :=
           fold_left (fun result product => result ++ "- " ++ product ++ LF)
             sortedProducts result in
         let result :=
           if (20 <? length products)%nat
           then result ++ "- ... and "
                ++ Number_toString (Z.of_nat (length products) - 20) ++ " more" ++ LF
           else result in
         result ++ LF)
      entries acc
    = acc ++ concat_map
               (fun entry : string * list string =>
                  service_section (fst entry, Array_sort default_compare (snd entry)))
               entries).
  { intros entries acc. rewrite <- fold_left_append. apply fold_left_ext.
    intros result [name products]. cbv zeta. simpl fst. simpl snd.
    change (fun result product => result ++ "- " ++ product ++ LF)
      with (fun result product => result ++ product_line product).
    rewrite fold_left_append, Array_slice0_20. unfold service_section. simpl fst. simpl snd.
    rewrite (Permutation_length (Array_sort_perm default_compare products)).
    unfold more_line. destruct (20 <? length products)%nat.
    - now rewrite !append_assoc.
    - rewrite !append_assoc. now rewrite append_nil_l. }
  rewrite Hfold. now rewrite !append_assoc.
Qed.

Lemma Sorted_impl {A} (R R' : A -> A -> Prop) (l : list A) :
  (forall a b, R a b -> R' a b) -> Sorted R l -> Sorted R' l.
Proof.
  intros Himpl Hsorted. induction Hsorted as [|a l _ IH Hhd]; constructor; [exact IH|].
  destruct Hhd; constructor. now apply Himpl.
Qed.

Lemma inject_Z_le_0 (z : Z) : (inject_Z z <= 0)%Q <-> (z <= 0)%Z.
Proof. unfold Qle, inject_Z. simpl. lia. Qed.

Lemma listed_services_names `{Host} (items : list PriceItem) :
  map fst (listed_services items)
  = Array_sort (fun a b => inject_Z (localeCompare a b)) (first_seen (map serviceName items)).
Proof.
  unfold listed_services. rewrite List.map_map. simpl.
  rewrite (Array_sort_map_fst (fun a b => inject_Z (localeCompare a b))).
  rewrite collect_services_first_seen, List.map_map. simpl. now rewrite List.map_id.
Qed.

(** C8 (as amended). The discovery report is its heading, the summary line
    with the number of distinct services and the number of scanned records,
    and one section per distinct service name.  The sections are in the order
    of the engine's locale comparison of the names (ascending whenever that
    comparison is total).  A section lists the distinct product names of its
    service in code-unit order, the first 20 of them, followed by the line
    "... and N more" exactly when there are more than 20, with N the count
    less 20. *)
Theorem services_report_sorted_capped `{Host} (family : string) (items : list PriceItem) :
  exists services : list (string * list string),
    services_report family items
    = "## Services in " ++ DQUOTE ++ family ++ DQUOTE ++ " Family" ++ LF ++ LF
      ++ "Found " ++ Number_toString (Z.of_nat (length services))
      ++ " service(s) from " ++ Number_toString (Z.of_nat (length items))
      ++ " price records:" ++ LF ++ LF
      ++ concat_map service_section services
    /\ Permutation (map fst services) (first_seen (map serviceName items))
    /\ ((forall a b, (localeCompare a b <= 0)%Z \/ (localeCompare b a <= 0)%Z) ->
        Sorted (fun a b => (localeCompare a b <= 0)%Z) (map fst services))
    /\ Forall
         (fun entry =>
            Permutation (snd entry) (distinct_products (fst entry) items)
            /\ StronglySorted (fun a b => String.leb a b = true) (snd entry))
         services
    /\ (forall count, (20 < count)%nat ->
        more_line count
        = "- ... and " ++ Number_toString (Z.of_nat count - 20) ++ " more" ++ LF)
    /\ (forall count, (count <= 20)%nat -> more_line count = "").
Proof.
  exists (listed_services items).
  split; [apply services_report_sections|].
  split; [rewrite listed_services_names; apply Array_sort_perm|].
  split.
  { intros Htotal. rewrite listed_services_names.
    apply Sorted_impl
      with (R := compare_le (fun a b : string => inject_Z (localeCompare a b))).
    - intros a b. apply inject_Z_le_0.
    - apply Array_sort_sorted. intros a b. unfold compare_le.
      destruct (Htotal a b); [left|right]; now apply inject_Z_le_0. }
  split.
  { apply List.Forall_forall. intros entry Hin. unfold listed_services in Hin.
    apply List.in_map_iff in Hin as ([name products] & <- & Hin). simpl.
    apply (Permutation_in _ (Array_sort_perm _ (collect_services items))) in Hin.
    rewrite collect_services_first_seen in Hin.
    apply List.in_map_iff in Hin as (service & Heq & _).
    injection Heq as <- <-.
    split; [apply Array_sort_perm|apply sort_default_sorted]. }
  split.
  - intros count Hcount. unfold more_line.
    now destruct (Nat.ltb_spec 20 count); [|lia].
  - intros count Hcount. unfold more_line.
    now destruct (Nat.ltb_spec 20 count); [lia|].
Qed.

Lemma mock_localeCompare_total (a b : string) :
  (mock_localeCompare a b <= 0)%Z \/ (mock_localeCompare b a <= 0)%Z.
Proof.
  unfold mock_localeCompare.
  rewrite (String.compare_antisym (lower_string a) (lower_string b)).
  rewrite (String.compare_antisym a b).
  destruct (String.compare (lower_string b) (lower_string a)); simpl;
    destruct (String.compare b a); simpl; lia.
Qed.

Lemma services_report_sorted_capped_witness :
  exists services : list (string * list string),
    services_report (H := mock_host no_items) "Compute" twenty_five_products
    = "## Services in " ++ DQUOTE ++ "Compute" ++ DQUOTE ++ " Family" ++ LF ++ LF
      ++ "Found " ++ Number_toString (Z.of_nat (length services))
      ++ " service(s) from " ++ Number_toString 25
      ++ " price records:" ++ LF ++ LF
      ++ concat_map service_section services
    /\ Sorted (fun a b => (mock_localeCompare a b <= 0)%Z) (map fst services).
Proof.
  destruct (services_report_sorted_capped (H := mock_host no_items) "Compute"
              twenty_five_products)
    as (services & Hreport & _ & Hsorted & _).
  exists services. split; [exact Hreport|].
  apply Hsorted. exact mock_localeCompare_total.
Defined.

Example twenty_five_products_report :
  services_report (H := mock_host no_items) "Compute" twenty_five_products
  = "## Services in " ++ DQUOTE ++ "Compute" ++ DQUOTE ++ " Family" ++ LF ++ LF
    ++ "Found 1 service(s) from 25 price records:" ++ LF ++ LF
    ++ "### Virtual Machines" ++ LF
    ++ "Products (25):" ++ LF
    ++ concat_map product_line (map product_name (seq 0 20))
    ++ "- ... and 5 more" ++ LF
    ++ LF.
Proof. vm_compute. reflexivity. Qed.

Example get_services_by_family_twenty_five :
  fst (handleToolCall (H := mock_host (single_page twenty_five_products)) 0
         "get_services_by_family" (<["serviceFamily" := VString "Compute"]> ∅) [])
  = Returned (services_report (H := mock_host (single_page twenty_five_products))
                "Compute" twenty_five_products).
Proof. vm_compute. reflexivity. Qed.

(** The service names are listed in one order and, in the same report, the
    same two names as product names in the other: the service names are not
    in the code-unit order that sorts the product names. *)
Lemma services_report_two_orders :
  services_report (H := mock_host no_items) "Databases" service_bus_and_sql
  = "## Services in " ++ DQUOTE ++ "Databases" ++ DQUOTE ++ " Family" ++ LF ++ LF
    ++ "Found 2 service(s) from 3 price records:" ++ LF ++ LF
    ++ "### Service Bus" ++ LF
    ++ "Products (1):" ++ LF
    ++ "- Premium" ++ LF
    ++ LF
    ++ "### SQL Database" ++ LF
    ++ "Products (2):" ++ LF
    ++ "- SQL Database" ++ LF
    ++ "- Service Bus" ++ LF
    ++ LF
  /\ String.ltb "SQL Database" "Service Bus" = true
  /\ String.leb "Service Bus" "SQL Database" = false.
Proof. repeat split; vm_compute; reflexivity. Qed.

(** * Further properties of the code *)

(** ** The request of [queryAzurePrices] *)

Lemma initial_request_params (params : gmap string JsValue) :
  initial_request params
  = GET_url {| href := API_BASE_URL; searchParams := request_params params |}.
Proof.
  unfold initial_request, request_params, currency_param, primary_param, filter_param.
  destruct (truthy (params !! "currencyCode")), (truthy (params !! "primaryOnly")),
    (buildFilter params =? ""); reflexivity.
Qed.


(** X2. The first request, and with it the whole run of the fetcher, depends
    on the parameter map only through the eleven properties that
    [buildFilter] and [queryAzurePrices] read: any other property, such as
    [maxResults] or [regions], never reaches the upstream. *)
Theorem fetchWithPagination_reads_request_keys `{Host} (p1 p2 : gmap string JsValue) :
  (forall key, In key request_keys -> p1 !! key = p2 !! key) ->
  buildFilter p1 = buildFilter p2
  /\ (forall fuel maxResults log,
        fetchWithPagination fuel p1 maxResults log
        = fetchWithPagination fuel p2 maxResults log).
Proof.
  intros Hsame.
  assert (Hfilter : buildFilter p1 = buildFilter p2).
  { rewrite !buildFilter_join. f_equal. f_equal.
    - unfold supplied_fields.
      assert (Hfields : forall entry, In entry simpleFilters ->
                truthy (p1 !! fst entry) = truthy (p2 !! fst entry)
                /\ eq_clause p1 entry = eq_clause p2 entry).
      { intros entry Hin. unfold eq_clause.
        assert (p1 !! fst entry = p2 !! fst entry) as ->; [|now split].
        apply Hsame. simpl in Hin.
        repeat (destruct Hin as [<-|Hin]; [simpl; tauto|]). destruct Hin. }
      rewrite (List.filter_ext_in _ (fun entry => truthy (p2 !! fst entry))).
      + apply List.map_ext_in. intros entry Hin.
        apply List.filter_In in Hin as [Hin _]. now apply Hfields.
      + intros entry Hin. now apply Hfields.
    - unfold custom_clause. rewrite (Hsame "customFilter") by (simpl; tauto).
      reflexivity. }
  split; [exact Hfilter|].
  assert (Hrequest : initial_request p1 = initial_request p2).
  { rewrite !initial_request_params.
    unfold request_params, currency_param, primary_param, filter_param.
    rewrite Hfilter, (Hsame "currencyCode"), (Hsame "primaryOnly") by (simpl; tauto).
    reflexivity. }
  intros fuel maxResults log. unfold fetchWithPagination. unfold bind at 1 3.
  now rewrite !queryAzurePrices_eq, Hrequest.
Qed.

Lemma fetchWithPagination_reads_request_keys_witness :
  buildFilter (<["maxResults" := VNumber 5]> (<["serviceName" := VString "Storage"]> ∅))
  = buildFilter (<["regions" := VArray [VString "eastus"]]>
                   (<["serviceName" := VString "Storage"]> ∅)).
Proof.
  apply (fetchWithPagination_reads_request_keys (H := mock_host no_items)).
  intros key Hin. simpl in Hin.
  repeat (destruct Hin as [<-|Hin]; [vm_compute; reflexivity|]). destruct Hin.
Defined.

(** ** The requests of the tools *)














Example compare_vm_prices_request_example :
  snd (handleToolCall (H := mock_host no_items) 0 "compare_vm_prices"
         (<["serviceName" := VString "Storage"]>
            (<["currencyCode" := VString "EUR"]>
               (<["skuName" := VString "Standard_D2s_v3"]> ∅))) [])
  = [GET_url {| href := "https://prices.azure.com/api/retail/prices";
                searchParams :=
                  [ ("api-version", "2023-01-01-preview");
                    ("currencyCode", "'EUR'");
                    ("$filter",
                     "serviceName eq 'Virtual Machines' and armSkuName eq 'Standard_D2s_v3' and priceType eq 'Consumption'") ] |}].
Proof. vm_compute. reflexivity. Qed.

Example get_reservation_prices_request_example :
  snd (handleToolCall (H := mock_host no_items) 0 "get_reservation_prices"
         (<["priceType" := VString "Consumption"]>
            (<["armRegionName" := VString "eastus"]>
               (<["serviceName" := VString "Virtual Machines"]> ∅))) [])
  = [GET_url {| href := "https://prices.azure.com/api/retail/prices";
                searchParams :=
                  [ ("api-version", "2023-01-01-preview");
                    ("$filter",
                     "serviceName eq 'Virtual Machines' and armRegionName eq 'eastus' and priceType eq 'Reservation'") ] |}].
Proof. vm_compute. reflexivity. Qed.

(** ** Bounds on what the fetcher returns *)

Lemma bind_returned_inv {A B} (m : Async A) (k : A -> Async B) (log log' : list Request)
    (b : B) :
  bind m k log = (Returned b, log') ->
  exists a log1, m log = (Returned a, log1) /\ k a log1 = (Returned b, log').
Proof.
  unfold bind. destruct (m log) as [[a|e|] log1]; try discriminate.
  intros Hk. now exists a, log1.
Qed.

Lemma fetchWithPagination_returned_slice `{Host} (fuel : nat)
    (params : gmap string JsValue) (maxResults : option number) (log log' : list Request)
    (items : list PriceItem) :
  fetchWithPagination fuel params maxResults log = (Returned items, log') ->
  exists fetched, items = Array_slice0 (default (Int 100) maxResults) fetched.
Proof.
  unfold fetchWithPagination. intros Hrun.
  apply bind_returned_inv in Hrun as (response & log1 & _ & Hrun).
  apply bind_returned_inv in Hrun as (fetched & log2 & _ & Hrun).
  exists fetched. unfold ret in Hrun. congruence.
Qed.

Lemma Array_slice0_length_nonneg {A} (cap : Z) (array : list A) :
  (0 <= cap)%Z -> (Z.of_nat (length (Array_slice0 (Int cap) array)) <= cap)%Z.
Proof.
  intros Hcap. rewrite Array_slice0_nonneg by exact Hcap.
  pose proof (firstn_le_length (Z.to_nat cap) array). lia.
Qed.

(** X6. Whatever the upstream does, a list that [fetchWithPagination] returns
    is never longer than a cap that is not negative; with a cap that is not
    a number it is empty, and with the cap left out it has at most 100
    items. *)
Theorem fetchWithPagination_length_bound `{Host} (fuel : nat)
    (params : gmap string JsValue) (log log' : list Request) (items : list PriceItem) :
  (forall cap, (0 <= cap)%Z ->
     fetchWithPagination fuel params (Some (Int cap)) log = (Returned items, log') ->
     (Z.of_nat (length items) <= cap)%Z)
  /\ (fetchWithPagination fuel params (Some NaN) log = (Returned items, log') ->
      items = [])
  /\ (fetchWithPagination fuel params None log = (Returned items, log') ->
      (length items <= 100)%nat).
Proof.
  split; [|split].
  - intros cap Hcap Hrun.
    apply fetchWithPagination_returned_slice in Hrun as (fetched & ->).
    now apply Array_slice0_length_nonneg.
  - intros Hrun. apply fetchWithPagination_returned_slice in Hrun as (fetched & ->).
    unfold Array_slice0. simpl. rewrite Z.min_l by lia. reflexivity.
  - intros Hrun. apply fetchWithPagination_returned_slice in Hrun as (fetched & ->).
    pose proof (Array_slice0_length_nonneg 100 fetched). simpl default. lia.
Qed.

Lemma fetchWithPagination_length_bound_witness :
  (Z.of_nat (length (numbered_items 0 120)) <= 120)%Z.
Proof.
  apply (proj1 (fetchWithPagination_length_bound (H := mock_host three_pages) 3 ∅ []
                  [initial_request ∅; GET_link "page2"; GET_link "page3"]
                  (numbered_items 0 120))).
  - lia.
  - vm_compute. reflexivity.
Defined.

Lemma requested_cap_bound `{Host} (args : gmap string JsValue) (dflt hard : Z) :
  maxResults_not_negative args -> (0 < dflt <= hard)%Z ->
  exists cap,
    Math_min (ToNumber (or_else (args !! "maxResults") (VNumber dflt))) hard = Int cap
    /\ (0 <= cap <= hard)%Z
    /\ (forall n, args !! "maxResults" = Some (VNumber n) -> (0 < n)%Z -> (cap <= n)%Z).
Proof.
  intros [Hnone|(n & Hn & Hpos)] Hd; unfold or_else.
  - rewrite Hnone. simpl. exists (Z.min dflt hard).
    split; [reflexivity|]. split; [lia|]. intros n Hn. discriminate.
  - rewrite Hn. simpl. destruct (Z.eqb_spec n 0) as [->|Hne]; simpl.
    + exists (Z.min dflt hard). split; [reflexivity|]. split; [lia|].
      intros m Hm. injection Hm as <-. lia.
    + exists (Z.min n hard). split; [reflexivity|]. split; [lia|].
      intros m Hm. injection Hm as <-. lia.
Qed.

(** X7. When [maxResults] is left out or is a number that is not negative,
    a report of the raw query is built from at most 1000 items, and from at
    most [maxResults] items when that is positive; a discovery report scans at
    most 2000 records. *)
Theorem caller_caps `{Host} (fuel : nat) (args : gmap string JsValue)
    (log log' : list Request) (report : string) :
  maxResults_not_negative args ->
  (handleToolCall fuel "query_azure_prices" args log = (Returned report, log') ->
   exists items,
     report = formatPriceItems items /\ (length items <= 1000)%nat
     /\ (forall n, args !! "maxResults" = Some (VNumber n) -> (0 < n)%Z ->
         (Z.of_nat (length items) <= n)%Z))
  /\ (handleToolCall fuel "get_services_by_family" args log = (Returned report, log') ->
      not_a_family (args !! "serviceFamily")
      \/ exists items,
           (length items <= 2000)%nat
           /\ (report = services_report (ToString (args !! "serviceFamily")) items
               \/ report = "No services found for service family: "
                           ++ ToString (args !! "serviceFamily"))).
Proof.
  intros Hargs. split.
  - unfold handleToolCall. simpl. unfold query_azure_prices. intros Hrun.
    apply bind_returned_inv in Hrun as (items & log1 & Hfetch & Hret).
    destruct (requested_cap_bound args 100 1000 Hargs ltac:(lia))
      as (cap & Hcap & Hrange & Hle).
    rewrite Hcap in Hfetch.
    apply fetchWithPagination_returned_slice in Hfetch as (fetched & ->).
    change (default (Int 100) (Some (Int cap))) with (Int cap) in *.
    exists (Array_slice0 (Int cap) fetched).
    pose proof (Array_slice0_length_nonneg cap fetched ltac:(lia)) as Hlen.
    split; [unfold ret in Hret; congruence|]. split; [lia|].
    intros n Hn Hpos. specialize (Hle n Hn Hpos). lia.
  - unfold handleToolCall. simpl. unfold get_services_by_family.
    destruct (includes_string SERVICE_FAMILIES (args !! "serviceFamily")) eqn:Hinc;
      cbn [negb].
    + intros Hrun. right.
      apply bind_returned_inv in Hrun as (items & log1 & Hfetch & Hret).
      destruct (requested_cap_bound args 500 2000 Hargs ltac:(lia))
        as (cap & Hcap & Hrange & _).
      rewrite Hcap in Hfetch.
      apply fetchWithPagination_returned_slice in Hfetch as (fetched & ->).
      change (default (Int 100) (Some (Int cap))) with (Int cap) in *.
      exists (Array_slice0 (Int cap) fetched).
      pose proof (Array_slice0_length_nonneg cap fetched ltac:(lia)) as Hlen.
      split; [lia|].
      destruct (length (Array_slice0 (Int cap) fetched) =? 0)%nat;
        unfold ret in Hret; [right|left]; congruence.
    + intros _. left. now apply not_a_family_includes.
Qed.

Lemma caller_caps_witness :
  exists items,
    fst (handleToolCall (H := mock_host three_pages) 3 "query_azure_prices"
           five_thousand [])
    = Returned (formatPriceItems (H := mock_host three_pages) items)
    /\ (length items <= 1000)%nat.
Proof.
  destruct (handleToolCall (H := mock_host three_pages) 3 "query_azure_prices"
              five_thousand []) as [[report| |] log'] eqn:Hrun;
    [|vm_compute in Hrun; discriminate Hrun|vm_compute in Hrun; discriminate Hrun].
  assert (Hargs : maxResults_not_negative five_thousand)
    by (right; exists 5000%Z; split; [vm_compute; reflexivity|lia]).
  destruct (proj1 (caller_caps (H := mock_host three_pages) 3 five_thousand [] log' report
                     Hargs) Hrun)
    as (items & Hreport & Hlen & _).
  exists items. split; [simpl; now rewrite Hreport|exact Hlen].
Defined.

(** X8. The comparison report is built from at most 500 fetched items, region
    filter applied; a reservation report from at most 200 and at least one. *)
Theorem fixed_caps `{Host} (fuel : nat) (args : gmap string JsValue)
    (log log' : list Request) (report : string) :
  (handleToolCall fuel "compare_vm_prices" args log = (Returned report, log') ->
   exists items,
     report = compare_report (filter_regions (args !! "regions") items)
     /\ (length items <= 500)%nat)
  /\ (handleToolCall fuel "get_reservation_prices" args log = (Returned report, log') ->
      report = "No reservation prices found for the specified criteria."
      \/ exists items,
           report = reservation_report items /\ (0 < length items <= 200)%nat).
Proof.
  split.
  - change (handleToolCall fuel "compare_vm_prices" args log)
      with ((items <- fetchWithPagination fuel (compare_params args) (Some (Int 500)) ;;
             ret (compare_report (filter_regions (args !! "regions") items))) log).
    intros Hrun. apply bind_returned_inv in Hrun as (items & log1 & Hfetch & Hret).
    exists items. split; [unfold ret in Hret; congruence|].
    apply fetchWithPagination_returned_slice in Hfetch as (fetched & ->).
    pose proof (Array_slice0_length_nonneg 500 fetched ltac:(lia)).
    simpl default. lia.
  - change (handleToolCall fuel "get_reservation_prices" args log)
      with ((items <- fetchWithPagination fuel (reservation_params args) (Some (Int 200)) ;;
             if (length items =? 0)%nat
             then ret "No reservation prices found for the specified criteria."
             else ret (reservation_report items)) log).
    intros Hrun. apply bind_returned_inv in Hrun as (items & log1 & Hfetch & Hret).
    destruct (Nat.eqb_spec (length items) 0) as [Hzero|Hpos].
    + left. unfold ret in Hret. congruence.
    + right. exists items. split; [unfold ret in Hret; congruence|].
      apply fetchWithPagination_returned_slice in Hfetch as (fetched & ->).
      pose proof (Array_slice0_length_nonneg 200 fetched ltac:(lia)).
      simpl default in *. lia.
Qed.

Lemma fixed_caps_witness :
  exists items,
    compare_report (H := mock_host (single_page two_skus)) two_skus
    = compare_report (H := mock_host (single_page two_skus))
        (filter_regions ((∅ : gmap string JsValue) !! "regions") items)
    /\ (length items <= 500)%nat.
Proof.
  apply (proj1 (fixed_caps (H := mock_host (single_page two_skus)) 0 ∅ []
                  [initial_request (compare_params ∅)]
                  (compare_report (H := mock_host (single_page two_skus)) two_skus))).
  vm_compute. reflexivity.
Defined.

(** ** Nothing found, and an upstream that is down *)









(** ** The reservation report *)

Lemma filter_partition {A} (p q : A -> bool) (l : list A) :
  (forall x, p x = true -> q x = false) ->
  Permutation (List.filter (fun x => p x || q x) l)
    (List.filter p l ++ List.filter q l).
Proof.
  intros Hdisjoint. induction l as [|x l IH]; simpl; [reflexivity|].
  destruct (p x) eqn:Hp; simpl.
  - rewrite (Hdisjoint x Hp). now apply perm_skip.
  - destruct (q x); [|exact IH].
    rewrite IH. apply Permutation_middle.
Qed.

Lemma filter_all {A} (p : A -> bool) (l : list A) :
  (forall x, In x l -> p x = true) -> List.filter p l = l.
Proof.
  induction l as [|x l IH]; intros Hall; simpl; [reflexivity|].
  rewrite (Hall x) by now left. f_equal. apply IH. intros y Hy. apply Hall. now right.
Qed.

(** The groups of distinct keys split the items: nothing is lost and nothing
    is listed twice. *)
Lemma groups_partition {I} (key_of : I -> string) (items : list I) (keys : list string) :
  NoDup keys ->
  Permutation
    (concat (map (fun k => List.filter (fun item => key_of item =? k) items) keys))
    (List.filter (fun item => mem (key_of item) keys) items).
Proof.
  induction keys as [|k keys IH]; intros Hnodup.
  - simpl. induction items as [|x items IHi]; [reflexivity|exact IHi].
  - apply NoDup_cons in Hnodup as [Hnotin Hnodup]. simpl concat.
    rewrite (IH Hnodup).
    assert (Hfilter : List.filter (fun item => mem (key_of item) (k :: keys)) items
                      = List.filter (fun item => (key_of item =? k)
                                                 || mem (key_of item) keys) items).
    { apply List.filter_ext. intros item. unfold mem. simpl.
      now rewrite (String.eqb_sym k (key_of item)). }
    rewrite Hfilter. symmetry. apply filter_partition.
    intros item Heq. apply String.eqb_eq in Heq. subst k.
    destruct (mem (key_of item) keys) eqn:Hmem; [|reflexivity].
    exfalso. apply Hnotin. apply list_elem_of_In. now apply mem_In.
Qed.

Lemma groups_cover {I} (key_of : I -> string) (items : list I) :
  Permutation
    (concat (map (fun k => List.filter (fun item => key_of item =? k) items)
               (first_seen (map key_of items))))
    items.
Proof.
  rewrite groups_partition by apply first_seen_NoDup.
  rewrite filter_all; [reflexivity|].
  intros item Hin. rewrite mem_first_seen. apply mem_In. now apply List.in_map.
Qed.

Lemma reservation_report_sections `{Host} (items : list PriceItem) :
  reservation_report items
  = "## Reservation Prices" ++ LF ++ LF
    ++ concat_map reservation_section
         (map (fun k => (k, List.filter (fun item => reservation_key item =? k) items))
            (first_seen (map reservation_key items))).
Proof.
  unfold reservation_report.
  change (group_by (fun item => if armSkuName item =? "" then skuName item
                                else armSkuName item) items)
    with (group_by reservation_key items).
  rewrite group_by_first_seen.
  assert (Hfold : forall groups acc,
    fold_left
      (fun result (entry : string * list PriceItem) =>
         let (sku, prices) := entry in
         let result := result ++ "### " ++ sku ++ LF in
         let result :=
           fold_left
             (fun result p =>
                result ++ "- "
                ++ match reservationTerm p with
                   | Some t => if t =? "" then "N/A" else t
                   | None => "N/A"
                   end
                ++ ": " ++ price_toString (retailPrice p) ++ " " ++ currencyCode p
                ++ " - " ++ location p ++ " (" ++ productName p ++ ")" ++ LF)
             prices result in
         result ++ LF)
      groups acc
    = acc ++ concat_map reservation_section groups).
  { intros groups acc. rewrite <- fold_left_append. apply fold_left_ext.
    intros result [sku prices]. cbv zeta.
    change (fun result p =>
              result ++ "- "
              ++ match reservationTerm p with
                 | Some t => if t =? "" then "N/A" else t
                 | None => "N/A"
                 end
              ++ ": " ++ price_toString (retailPrice p) ++ " " ++ currencyCode p
              ++ " - " ++ location p ++ " (" ++ productName p ++ ")" ++ LF)
      with (fun result p => result ++ reservation_line p).
    rewrite fold_left_append. unfold reservation_section. simpl fst. simpl snd.
    now rewrite !append_assoc. }
  rewrite Hfold. now rewrite !append_assoc.
Qed.

(** X11. The reservation report is its header followed by one section per
    key, the ARM SKU name or else the SKU name, in first-seen order; a section
    lists the items of its key in fetch order, one line each, so that every
    item is listed exactly once. *)
Theorem reservation_report_grouped `{Host} (items : list PriceItem) :
  exists groups : list (string * list PriceItem),
    reservation_report items
    = "## Reservation Prices" ++ LF ++ LF ++ concat_map reservation_section groups
    /\ map fst groups = first_seen (map reservation_key items)
    /\ Forall
         (fun group =>
            snd group = List.filter (fun item => reservation_key item =? fst group) items)
         groups
    /\ Permutation (concat (map snd groups)) items.
Proof.
  exists (map (fun k => (k, List.filter (fun item => reservation_key item =? k) items))
            (first_seen (map reservation_key items))).
  split; [apply reservation_report_sections|].
  split; [rewrite List.map_map; simpl; apply List.map_id|].
  split.
  - apply List.Forall_forall. intros group Hin.
    apply List.in_map_iff in Hin as (k & <- & _). reflexivity.
  - rewrite List.map_map. simpl. apply groups_cover.
Qed.

Example reservation_report_falls_back_to_skuName :
  reservation_report (H := mock_host no_items)
    [ {| currencyCode := "USD"; tierMinimumUnits := 0; retailPrice := 700;
         unitPrice := 700; armRegionName := "eastus"; location := "US East";
         effectiveStartDate := "2024-01-01T00:00:00Z"; meterId := "m";
         meterName := "meter"; productId := "p"; skuId := "s";
         productName := "SQL Database"; skuName := "vCore"; serviceName := "SQL Database";
         serviceId := "svc"; serviceFamily := "Databases"; unitOfMeasure := "1 Hour";
         type := "Reservation"; isPrimaryMeterRegion := true; armSkuName := "";
         reservationTerm := Some "1 Year"; savingsPlan := None |} ]
  = "## Reservation Prices" ++ LF ++ LF
    ++ "### vCore" ++ LF
    ++ "- 1 Year: 700 USD - US East (SQL Database)" ++ LF
    ++ LF.
Proof. vm_compute. reflexivity. Qed.

(** ** When the loop ends *)

Lemma pagination_loop_bounded `{H : Host} :
  nonempty_pages H ->
  forall fuel cap response items log,
    (Z.to_nat (cap - Z.of_nat (length items)) <= fuel)%nat ->
    fst (pagination_loop fuel (Int cap) response items log) <> Diverged.
Proof.
  intros Hpages. induction fuel as [|fuel IH]; intros cap response items log Hfuel.
  - simpl. destruct (NextPageLink response) as [link|]; [|discriminate].
    destruct (Z.ltb_spec (Z.of_nat (length items)) cap) as [Hlt|_]; [lia|].
    rewrite andb_false_r. discriminate.
  - simpl. destruct (NextPageLink response) as [link|]; [|discriminate].
    destruct (negb (link =? "")); simpl; [|discriminate].
    destruct (Z.ltb_spec (Z.of_nat (length items)) cap) as [Hlt|_]; [|discriminate].
    unfold bind at 1. unfold await_fetch.
    destruct (fetch (GET_link link)) as [r|reason] eqn:Hfetch; simpl; [|discriminate].
    destruct (ok r) eqn:Hok; simpl; [|discriminate].
    unfold bind at 1.
    destruct (json r) as [body|reason] eqn:Hjson; simpl; [|discriminate].
    apply IH. unfold Array_push_all. rewrite length_app.
    pose proof (Hpages link r body Hfetch Hok Hjson) as Hitems.
    destruct (Items body); [congruence|]. simpl length. lia.
Qed.

Lemma pagination_loop_NaN `{Host} (fuel : nat) (response : ApiResponse)
    (items : list PriceItem) (log : list Request) :
  pagination_loop fuel NaN response items log = (Returned items, log).
Proof.
  destruct fuel; simpl; destruct (NextPageLink response); try reflexivity;
    now rewrite andb_false_r.
Qed.

Lemma fetchWithPagination_bounded `{H : Host} (fuel : nat) (params : gmap string JsValue)
    (maxResults : number) (log : list Request) :
  nonempty_pages H ->
  (forall cap, maxResults = Int cap -> (Z.to_nat cap <= fuel)%nat) ->
  fst (fetchWithPagination fuel params (Some maxResults) log) <> Diverged.
Proof.
  intros Hpages Hfuel. unfold fetchWithPagination. unfold bind at 1.
  rewrite queryAzurePrices_eq.
  destruct (fetch (initial_request params)) as [r0|reason]; [|discriminate].
  destruct (ok r0); cbn [negb]; [|discriminate].
  destruct (json r0) as [body|reason]; [|discriminate].
  apply bind_terminates; [|discriminate]. simpl default.
  destruct maxResults as [|cap].
  - now rewrite pagination_loop_NaN.
  - apply pagination_loop_bounded; [exact Hpages|].
    specialize (Hfuel cap eq_refl). lia.
Qed.

Lemma Math_min_bounded (n : number) (hard : Z) (fuel : nat) :
  (Z.to_nat hard <= fuel)%nat ->
  forall cap, Math_min n hard = Int cap -> (Z.to_nat cap <= fuel)%nat.
Proof.
  intros Hfuel cap. destruct n as [|z]; simpl; [discriminate|].
  intros Heq. injection Heq as <-. lia.
Qed.

(** X12. Over an upstream none of whose linked pages is empty, the loop is
    bounded by the cap: with fuel for 2000 iterations the dispatcher yields a
    result for every tool name and every argument map. *)
Theorem CallToolRequest_handler_bounded `{H : Host} (fuel : nat) (name : string)
    (args : gmap string JsValue) (log : list Request) :
  nonempty_pages H -> (2000 <= fuel)%nat ->
  exists result log',
    CallToolRequest_handler fuel name args log = (Returned result, log').
Proof.
  intros Hpages Hfuel.
  assert (Hcall : fst (handleToolCall fuel name args log) <> Diverged).
  { unfold handleToolCall.
    destruct (name =? "query_azure_prices").
    { apply bind_terminates; [|discriminate].
      apply fetchWithPagination_bounded; [exact Hpages|].
      apply Math_min_bounded. lia. }
    destruct (name =? "compare_vm_prices").
    { apply bind_terminates; [|discriminate].
      apply fetchWithPagination_bounded; [exact Hpages|].
      intros cap Hcap. injection Hcap as <-. lia. }
    destruct (name =? "get_service_families"); [discriminate|].
    destruct (name =? "get_reservation_prices").
    { apply bind_terminates.
      - apply fetchWithPagination_bounded; [exact Hpages|].
        intros cap Hcap. injection Hcap as <-. lia.
      - intros items log'. destruct (length items =? 0)%nat; discriminate. }
    destruct (name =? "get_services_by_family"); [|discriminate].
    unfold get_services_by_family.
    destruct (negb (includes_string SERVICE_FAMILIES (args !! "serviceFamily")));
      [discriminate|].
    apply bind_terminates.
    - apply fetchWithPagination_bounded; [exact Hpages|].
      apply Math_min_bounded. lia.
    - intros items log'. destruct (length items =? 0)%nat; discriminate. }
  rewrite CallToolRequest_handler_eq.
  destruct (handleToolCall fuel name args log) as [[report|e|] log']; simpl in Hcall.
  - now exists (text_result report), log'.
  - now exists (error_result e), log'.
  - congruence.
Qed.

Lemma three_pages_nonempty : nonempty_pages (mock_host three_pages).
Proof.
  intros link r body Hfetch _ Hjson. simpl in Hfetch. unfold three_pages in Hfetch.
  destruct (link =? "page2").
  - injection Hfetch as <-. injection Hjson as <-. discriminate.
  - destruct (link =? "page3"); [|discriminate].
    injection Hfetch as <-. injection Hjson as <-. discriminate.
Qed.

Lemma CallToolRequest_handler_bounded_witness :
  exists result log',
    CallToolRequest_handler (H := mock_host three_pages) 2000 "query_azure_prices"
      five_thousand [] = (Returned result, log').
Proof.
  apply (CallToolRequest_handler_bounded (H := mock_host three_pages) 2000
           "query_azure_prices" five_thousand [] three_pages_nonempty).
  lia.
Defined.

(** ** Which requests the fetcher issues *)

(** X13. When the first page already holds as many items as the cap, or has
    no next-page link, the first request is the only one: the fetcher returns
    the capped first page without iterating, and so with no fuel at all. *)
Theorem fetchWithPagination_single_request `{Host} (fuel : nat)
    (params : gmap string JsValue) (cap : Z) (log : list Request)
    (r0 : Response) (first : ApiResponse) :
  (0 <= cap)%Z ->
  fetch (initial_request params) = Fulfilled r0 -> ok r0 = true ->
  json r0 = Fulfilled first ->
  (cap <= Z.of_nat (length (Items first)))%Z
  \/ NextPageLink first = None \/ NextPageLink first = Some "" ->
  fetchWithPagination fuel params (Some (Int cap)) log
  = (Returned (firstn (Z.to_nat cap) (Items first)),
     (log ++ [initial_request params])%list).
Proof.
  intros Hcap Hfetch Hok Hjson Hstop.
  unfold fetchWithPagination. unfold bind at 1.
  rewrite queryAzurePrices_eq, Hfetch, Hok, Hjson. cbn [negb].
  unfold bind. simpl default.
  assert (Hloop : pagination_loop fuel (Int cap) first (Array_push_all [] (Items first))
                    (log ++ [initial_request params])%list
                  = (Returned (Items first), (log ++ [initial_request params])%list)).
  { unfold Array_push_all. simpl app.
    destruct fuel; simpl; destruct (NextPageLink first) as [link|] eqn:Hlink;
      try reflexivity;
      (destruct Hstop as [Hfull|[Hnone|Hempty]];
       [destruct (Z.ltb_spec (Z.of_nat (length (Items first))) cap); [lia|];
        now rewrite andb_false_r
       |discriminate
       |injection Hempty as ->; reflexivity]). }
  rewrite Hloop. unfold ret. now rewrite Array_slice0_nonneg.
Qed.

Lemma fetchWithPagination_single_request_witness :
  fetchWithPagination (H := mock_host three_pages) 0 ∅ (Some (Int 50)) []
  = (Returned (firstn (Z.to_nat 50) (numbered_items 0 50)),
     ([] ++ [initial_request ∅])%list).
Proof.
  apply (fetchWithPagination_single_request (H := mock_host three_pages) 0 ∅ 50 []
           (mock_page (numbered_items 0 50) (Some "page2"))
           (page (numbered_items 0 50) (Some "page2"))).
  - lia.
  - reflexivity.
  - reflexivity.
  - reflexivity.
  - left. vm_compute. discriminate.
Defined.

(** The items of the pages before the last of [steps]. *)
Lemma removelast_cons {A} (a b : A) (l : list A) :
  removelast (a :: b :: l) = a :: removelast (b :: l).
Proof. reflexivity. Qed.

Lemma pagination_loop_follows `{Host} (cap : Z) :
  forall steps response items fuel log,
    follows response steps ->
    steps = []
    \/ (Z.of_nat (length items
                  + length (arrival_order (removelast (map snd steps)))) < cap)%Z ->
    (length steps <= fuel)%nat ->
    pagination_loop fuel (Int cap) response items log
    = (Returned (items ++ arrival_order (map snd steps))%list,
       (log ++ map (fun step => GET_link (fst step)) steps)%list).
Proof.
  induction steps as [|[link next] steps IH]; intros response items fuel log Hf Hcap Hfuel.
  - unfold arrival_order. simpl. rewrite !app_nil_r.
    destruct fuel; simpl; destruct Hf as [-> | ->]; reflexivity.
  - destruct Hf as (Hlink & Hne & (r & Hfetch & Hok & Hjson) & Hrest).
    destruct Hcap as [Hnil|Hcap]; [discriminate|].
    destruct fuel as [|fuel]; [simpl in Hfuel; lia|].
    simpl pagination_loop. rewrite Hlink.
    apply String.eqb_neq in Hne. rewrite Hne. cbn [negb andb].
    assert ((Z.of_nat (length items) <? cap)%Z = true) as Hlt.
    { apply Z.ltb_lt. rewrite Nat2Z.inj_add in Hcap. lia. }
    simpl length_lt. rewrite Hlt.
    unfold bind at 1. unfold await_fetch. rewrite Hfetch. simpl.
    rewrite Hok. simpl. unfold bind at 1. rewrite Hjson. simpl.
    rewrite (IH next (Array_push_all items (Items next)) fuel
               (log ++ [GET_link link])%list Hrest).
    + unfold Array_push_all, arrival_order. simpl.
      now rewrite <- !app_assoc.
    + destruct steps as [|step steps]; [now left|right].
      simpl map in Hcap. rewrite removelast_cons in Hcap.
      unfold arrival_order in *. simpl concat in Hcap. simpl map.
      unfold Array_push_all. rewrite !length_app in *. lia.
    + simpl in Hfuel. lia.
Qed.

(** X14. When the upstream serves a chain of pages that ends without a link
    and the cap is not reached before the last of them, the fetcher issues
    the first request and then follows each page's link verbatim, in order,
    and returns the items of all the pages, capped. *)
Theorem fetchWithPagination_follows_links `{Host} (fuel : nat)
    (params : gmap string JsValue) (cap : Z) (log : list Request)
    (r0 : Response) (first : ApiResponse) (steps : list (string * ApiResponse)) :
  (0 <= cap)%Z ->
  fetch (initial_request params) = Fulfilled r0 -> ok r0 = true ->
  json r0 = Fulfilled first ->
  follows first steps ->
  steps = []
  \/ (Z.of_nat (length (arrival_order (removelast (first :: map snd steps)))) < cap)%Z ->
  (length steps <= fuel)%nat ->
  fetchWithPagination fuel params (Some (Int cap)) log
  = (Returned (firstn (Z.to_nat cap) (arrival_order (first :: map snd steps))),
     (log ++ initial_request params :: map (fun step => GET_link (fst step)) steps)%list).
Proof.
  intros Hcap Hfetch Hok Hjson Hf Hbefore Hfuel.
  unfold fetchWithPagination. unfold bind at 1.
  rewrite queryAzurePrices_eq, Hfetch, Hok, Hjson. cbn [negb].
  unfold bind. simpl default.
  rewrite (pagination_loop_follows cap steps first (Array_push_all [] (Items first)) fuel
             (log ++ [initial_request params])%list Hf).
  - unfold ret. rewrite Array_slice0_nonneg by exact Hcap.
    unfold Array_push_all, arrival_order. simpl. now rewrite <- app_assoc.
  - destruct steps as [|step steps]; [now left|right].
    destruct Hbefore as [Hnil|Hbefore]; [discriminate|].
    simpl map in *. rewrite removelast_cons in Hbefore.
    unfold arrival_order, Array_push_all in *. simpl concat in Hbefore.
    simpl app. rewrite length_app in Hbefore. exact Hbefore.
  - exact Hfuel.
Qed.

Lemma fetchWithPagination_follows_links_witness :
  fetchWithPagination (H := mock_host three_pages) 2 ∅ (Some (Int 120)) []
  = (Returned (firstn (Z.to_nat 120)
                 (arrival_order
                    (page (numbered_items 0 50) (Some "page2")
                     :: map snd [ ("page2", page (numbered_items 50 50) (Some "page3"));
                                  ("page3", page (numbered_items 100 50) None) ]))),
     ([] ++ initial_request ∅
         :: map (fun step : string * ApiResponse => GET_link (fst step))
              [ ("page2", page (numbered_items 50 50) (Some "page3"));
                ("page3", page (numbered_items 100 50) None) ])%list).
Proof.
  apply (fetchWithPagination_follows_links (H := mock_host three_pages) 2 ∅ 120 []
           (mock_page (numbered_items 0 50) (Some "page2"))).
  - lia.
  - reflexivity.
  - reflexivity.
  - reflexivity.
  - simpl. split; [reflexivity|]. split; [discriminate|]. split.
    + eexists. repeat split.
    + split; [reflexivity|]. split; [discriminate|]. split.
      * eexists. repeat split.
      * now left.
  - right. vm_compute. reflexivity.
  - simpl. lia.
Defined.

(** ** The region filter *)

Lemma In_firstn {A} (n : nat) (l : list A) (x : A) : In x (firstn n l) -> In x l.
Proof.
  intros Hin. rewrite <- (firstn_skipn n l). apply List.in_or_app. now left.
Qed.

Lemma includes_value_spec (values : list JsValue) (s : string) :
  includes_value values s = true <-> In (VString s) values.
Proof.
  unfold includes_value. rewrite existsb_exists. split.
  - intros (v & Hin & Hv). destruct v; try discriminate.
    apply String.eqb_eq in Hv. now subst.
  - intros Hin. exists (VString s). split; [exact Hin|apply String.eqb_refl].
Qed.

(** X15. The region filter keeps, in order, exactly the items whose region
    code is a string of a non-empty [regions] array; when [regions] is left
    out, is an empty array or is not an array at all, nothing is filtered.
    Under a non-empty array no line of the comparison report comes from a
    region outside it. *)
Theorem filter_regions_spec (regions : option JsValue) (items : list PriceItem) :
  (forall rs, regions = Some (VArray rs) -> rs <> [] ->
     filter_regions regions items
     = List.filter (fun item => includes_value rs (armRegionName item)) items
     /\ (forall item, In item (filter_regions regions items)
                      <-> In item items /\ In (VString (armRegionName item)) rs)
     /\ (forall sku item, In item (listed_under sku (filter_regions regions items)) ->
                          In (VString (armRegionName item)) rs))
  /\ ((forall rs, regions = Some (VArray rs) -> rs = []) ->
      filter_regions regions items = items).
Proof.
  split.
  - intros rs -> Hne.
    assert (Hfilter : filter_regions (Some (VArray rs)) items
                      = List.filter (fun item => includes_value rs (armRegionName item))
                          items).
    { unfold filter_regions. destruct rs; [congruence|reflexivity]. }
    assert (Hin : forall item, In item (filter_regions (Some (VArray rs)) items)
                               <-> In item items /\ In (VString (armRegionName item)) rs).
    { intros item. rewrite Hfilter, List.filter_In. now rewrite includes_value_spec. }
    split; [exact Hfilter|]. split; [exact Hin|].
    intros sku item Hlisted. unfold listed_under in Hlisted.
    apply In_firstn in Hlisted.
    apply (Permutation_in _ (Array_sort_perm _ _)) in Hlisted.
    apply List.filter_In in Hlisted as [Hlisted _]. now apply Hin.
  - intros Hnot. unfold filter_regions.
    destruct regions as [[| | | |rs|]|]; try reflexivity.
    now rewrite (Hnot rs eq_refl).
Qed.

Lemma filter_regions_spec_witness :
  filter_regions (Some (VString "westus")) two_skus = two_skus.
Proof.
  apply (proj2 (filter_regions_spec (Some (VString "westus")) two_skus)).
  intros rs Hrs. discriminate Hrs.
Defined.

Example filter_regions_keeps_listed :
  map armRegionName
    (filter_regions (Some (VArray [VString "westus"; VNumber 7; VString "northeurope"]))
       two_skus)
  = ["westus"; "northeurope"].
Proof. vm_compute. reflexivity. Qed.

(** ** The switch and the registered tools *)

(** X16. The switch of [handleToolCall] covers exactly the registered tools:
    the unknown-tool error is thrown, before any request, if and only if the
    name is not one of the five. *)
Theorem handleToolCall_covers_tools `{Host} (fuel : nat) (name : string)
    (args : gmap string JsValue) (log : list Request) :
  handleToolCall fuel name args log = (Thrown ("Unknown tool: " ++ name), log)
  <-> ~ In name tools.
Proof.
  split; [|apply handleToolCall_unknown_tool].
  intros Hthrown Hin.
  assert (Hgrow : forall params maxResults (k : list PriceItem -> Async string),
            (forall items log', exists more, snd (k items log') = (log' ++ more)%list) ->
            bind (fetchWithPagination fuel params maxResults) k log
            <> (Thrown ("Unknown tool: " ++ name), log)).
  { intros params maxResults k Hk Heq.
    destruct (fetchWithPagination_log fuel params maxResults log) as [more Hmore].
    destruct (bind_log (fetchWithPagination fuel params maxResults) k log
                (initial_request params :: more) Hmore Hk) as [more' Hmore'].
    rewrite Heq in Hmore'. simpl in Hmore'.
    apply (f_equal (@length Request)) in Hmore'.
    rewrite !length_app in Hmore'. simpl in Hmore'. lia. }
  simpl in Hin. destruct Hin as [<-|[<-|[<-|[<-|[<-|[]]]]]].
  - revert Hthrown. unfold handleToolCall. simpl. apply Hgrow.
    intros items log'. exists []. now rewrite app_nil_r.
  - revert Hthrown. unfold handleToolCall. simpl. apply Hgrow.
    intros items log'. exists []. now rewrite app_nil_r.
  - discriminate Hthrown.
  - revert Hthrown. unfold handleToolCall. simpl. apply Hgrow.
    intros items log'. exists []. rewrite app_nil_r.
    destruct (length items =? 0)%nat; reflexivity.
  - revert Hthrown. unfold handleToolCall. simpl. unfold get_services_by_family.
    destruct (negb (includes_string SERVICE_FAMILIES (args !! "serviceFamily")));
      [discriminate|].
    apply Hgrow. intros items log'. exists []. rewrite app_nil_r.
    destruct (length items =? 0)%nat; reflexivity.
Qed.

(** ** The raw list *)

Lemma formatPriceItem_parts `{Host} (item : PriceItem) :
  formatPriceItem item = block_base item ++ term_part item ++ plans_part item.
Proof.
  unfold formatPriceItem, term_part, term_of, plans_part, plans_of.
  fold (block_base item).
  destruct (reservationTerm item) as [t|]; [destruct (t =? ""); cbn [negb]|];
    (destruct (savingsPlan item) as [[|plan plans]|];
     [ | | ]; cbn [length Nat.ltb Nat.leb];
     rewrite ?append_nil_r; try reflexivity;
     change (fun result plan0 =>
               result ++ LF ++ "    - " ++ SavingsPlan.term plan0 ++ ": "
               ++ price_toString (SavingsPlan.retailPrice plan0) ++ " "
               ++ currencyCode item)
       with (fun result plan0 => result ++ plan_line item plan0);
     rewrite fold_left_append; now rewrite ?append_assoc).
Qed.

(** X17. The raw list is the fixed message when there is no item; otherwise
    it is the count line followed by one block per item, blocks separated by
    a blank line.  A block is its seven lines, then the reservation term when
    the item has a non-empty one, then the savings plans heading with one line
    per plan when the item has a plan; an empty term or plan list prints like
    an absent one. *)
Theorem formatPriceItems_blocks `{Host} (items : list PriceItem) :
  formatPriceItems items
  = match items with
    | [] => "No prices found matching the criteria."
    | _ =>
        "Found " ++ Number_toString (Z.of_nat (length items)) ++ " price(s):" ++ LF ++ LF
        ++ join (LF ++ LF)
             (map (fun item => block_base item ++ term_part item ++ plans_part item) items)
    end.
Proof.
  unfold formatPriceItems. destruct items as [|item items]; [reflexivity|].
  cbn [length Nat.eqb].
  rewrite (List.map_ext formatPriceItem
             (fun item => block_base item ++ term_part item ++ plans_part item)
             formatPriceItem_parts).
  reflexivity.
Qed.

Example formatPriceItems_with_term_and_plans :
  formatPriceItems (H := mock_host no_items)
    [ {| currencyCode := "USD"; tierMinimumUnits := 0; retailPrice := 96;
         unitPrice := 96; armRegionName := "eastus"; location := "US East";
         effectiveStartDate := "2024-01-01T00:00:00Z"; meterId := "m";
         meterName := "D2s v3"; productId := "p"; skuId := "s";
         productName := "Virtual Machines Dv3 Series"; skuName := "D2s v3";
         serviceName := "Virtual Machines"; serviceId := "svc";
         serviceFamily := "Compute"; unitOfMeasure := "1 Hour"; type := "Consumption";
         isPrimaryMeterRegion := true; armSkuName := "";
         reservationTerm := Some "3 Years";
         savingsPlan := Some [ SavingsPlan.mk 70 70 "1 Year"; SavingsPlan.mk 50 50 "3 Years" ]
      |} ]
  = "Found 1 price(s):" ++ LF ++ LF
    ++ "**Virtual Machines Dv3 Series** - D2s v3" ++ LF
    ++ "  - Retail Price: 96 USD/1 Hour" ++ LF
    ++ "  - Region: US East (eastus)" ++ LF
    ++ "  - Service: Virtual Machines (Compute)" ++ LF
    ++ "  - Type: Consumption" ++ LF
    ++ "  - Meter: D2s v3" ++ LF
    ++ "  - ARM SKU: N/A" ++ LF
    ++ "  - Reservation Term: 3 Years" ++ LF
    ++ "  - Savings Plans:" ++ LF
    ++ "    - 1 Year: 70 USD" ++ LF
    ++ "    - 3 Years: 50 USD".
Proof. vm_compute. reflexivity. Qed.

(** ** A negative cap *)

(** X18. With a negative cap the loop never runs: after the single first
    request the fetcher returns the first page without its last [-cap] items
    (nothing when the page has no more than that). *)
Theorem fetchWithPagination_negative `{Host} (fuel : nat) (params : gmap string JsValue)
    (cap : Z) (log : list Request) (r0 : Response) (first : ApiResponse) :
  (cap < 0)%Z ->
  fetch (initial_request params) = Fulfilled r0 -> ok r0 = true ->
  json r0 = Fulfilled first ->
  fetchWithPagination fuel params (Some (Int cap)) log
  = (Returned (firstn (length (Items first) - Z.to_nat (- cap)) (Items first)),
     (log ++ [initial_request params])%list).
Proof.
  intros Hcap Hfetch Hok Hjson.
  unfold fetchWithPagination. unfold bind at 1.
  rewrite queryAzurePrices_eq, Hfetch, Hok, Hjson. cbn [negb].
  unfold bind. simpl default.
  assert (Hloop : pagination_loop fuel (Int cap) first (Array_push_all [] (Items first))
                    (log ++ [initial_request params])%list
                  = (Returned (Items first), (log ++ [initial_request params])%list)).
  { unfold Array_push_all. simpl app.
    destruct fuel; simpl; destruct (NextPageLink first) as [link|]; try reflexivity;
      (destruct (Z.ltb_spec (Z.of_nat (length (Items first))) cap); [lia|];
       now rewrite andb_false_r). }
  rewrite Hloop. unfold ret. f_equal. f_equal.
  unfold Array_slice0. simpl ToIntegerOrInfinity.
  destruct (Z.ltb_spec cap 0) as [_|Hge]; [|lia].
  f_equal. lia.
Qed.

Lemma fetchWithPagination_negative_witness :
  fetchWithPagination (H := mock_host three_pages) 5 ∅ (Some (Int (-20))) []
  = (Returned (firstn (length (numbered_items 0 50) - Z.to_nat (- (-20)))
                 (numbered_items 0 50)),
     ([] ++ [initial_request ∅])%list).
Proof.
  apply (fetchWithPagination_negative (H := mock_host three_pages) 5 ∅ (-20) []
           (mock_page (numbered_items 0 50) (Some "page2"))
           (page (numbered_items 0 50) (Some "page2"))).
  - lia.
  - reflexivity.
  - reflexivity.
  - reflexivity.
Defined.
